(** * ovn-bgp-vpnv4: allocator, tenant store, FRR renderer and driver

    Shallow embedding of the modules [ovn_bgp_vpnv4.allocator],
    [ovn_bgp_vpnv4.config], [ovn_bgp_vpnv4.frr] and [ovn_bgp_vpnv4.driver],
    and the neighbour parsing of [vpnv4_agent.config].  The package
    [ovn_bgp_agent] (driver adapter and registry) and the file watcher
    [vpnv4_agent.watchers.file], which imports it, are not modelled: importing
    [ovn_bgp_agent] raises [IndentationError] from
    [drivers/upstream_vpnv4_driver.py], line 541, which the
    [except ImportError] of [drivers/__init__.py] does not catch.

    Conventions of the embedding:
    - a Python [str] is modelled by its UTF-8 encoding, a Rocq [string]
      (a list of bytes); [namespace.encode("utf-8")] is then the identity;
    - a Python [int] is a [Z]; [%] is [Z.modulo] (both round toward minus
      infinity), and [x % 0] raises [ZeroDivisionError];
    - a [Dict] whose iteration order does not matter is a [gmap]; the
      driver's [tenants] dict, whose insertion order decides the rendering
      order, is an association list with Python's dict semantics;
    - an exception is a value of [PyExc]; a stateful method returns its
      outcome together with the state it leaves behind, so the mutations
      done before a [raise] stay visible, as in Python. *)

From Stdlib Require Import ZArith Lia String Ascii.
From stdpp Require Import base gmap strings list.

Open Scope string_scope.
Open Scope list_scope.
Open Scope Z_scope.

(** ** Python exceptions raised by the modelled code *)

Inductive PyExc :=
| ZeroDivisionError
| RuntimeError (msg : string)
| AttributeError (attr : string).

(** ** String helpers *)

Definition nl : string := String (ascii_of_nat 10) EmptyString.

(** [sep.join(parts)] *)
Fixpoint join (sep : string) (parts : list string) : string :=
  match parts with
  | [] => ""
  | [x] => x
  | x :: rest => x +:+ sep +:+ join sep rest
  end.

Definition digit_char (d : N) : ascii := ascii_of_N (48 + d).

Fixpoint N_digits (fuel : nat) (n : N) (acc : string) : string :=
  match fuel with
  | O => acc
  | S f =>
      let acc' := String (digit_char (n mod 10)) acc in
      if (n / 10 =? 0)%N then acc' else N_digits f (n / 10)%N acc'
  end.

(** [str(n)] / [f"{n}"] for a Python int. *)
Definition str_Z (z : Z) : string :=
  match z with
  | Zneg p => "-" +:+ N_digits (S (N.size_nat (Npos p))) (Npos p) ""
  | _ => N_digits (S (N.size_nat (Z.to_N z))) (Z.to_N z) ""
  end.

Definition bytes_of_string (s : string) : list Z :=
  map (fun c => Z.of_N (N_of_ascii c)) (list_ascii_of_string s).

(** ** SHA-256 ([hashlib.sha256]), FIPS 180-4 *)

Module SHA256.

Definition mask32 (x : Z) : Z := Z.land x (Z.ones 32).
Definition add32 (a b : Z) : Z := mask32 (a + b).
Definition rotr (n x : Z) : Z := Z.lor (Z.shiftr x n) (mask32 (Z.shiftl x (32 - n))).

Definition Ch (x y z : Z) : Z := Z.lxor (Z.land x y) (Z.land (Z.lxor x (Z.ones 32)) z).
Definition Maj (x y z : Z) : Z := Z.lxor (Z.lxor (Z.land x y) (Z.land x z)) (Z.land y z).
Definition Sigma0 (x : Z) : Z := Z.lxor (Z.lxor (rotr 2 x) (rotr 13 x)) (rotr 22 x).
Definition Sigma1 (x : Z) : Z := Z.lxor (Z.lxor (rotr 6 x) (rotr 11 x)) (rotr 25 x).
Definition sigma0 (x : Z) : Z := Z.lxor (Z.lxor (rotr 7 x) (rotr 18 x)) (Z.shiftr x 3).
Definition sigma1 (x : Z) : Z := Z.lxor (Z.lxor (rotr 17 x) (rotr 19 x)) (Z.shiftr x 10).

(** Value of a hexadecimal digit. *)
Definition hex_val (c : ascii) : Z :=
  let n := Z.of_N (N_of_ascii c) in
  if Z.leb 97 n then n - 87 else n - 48.

(** The 32-bit words written, eight hex digits each, in [s]. *)
Fixpoint hex_words_go (s : string) (k : nat) (acc : Z) : list Z :=
  match s with
  | EmptyString => []
  | String c rest =>
      let acc' := acc * 16 + hex_val c in
      match k with
      | 7%nat => acc' :: hex_words_go rest 0 0
      | _ => hex_words_go rest (S k) acc'
      end
  end.

Definition hex_words (s : string) : list Z := hex_words_go s 0 0.

(** Round constants: first 32 bits of the fractional parts of the cube
    roots of the first 64 primes. *)
Definition K : list Z :=
  hex_words ("428a2f9871374491b5c0fbcfe9b5dba53956c25b59f111f1923f82a4ab1c5ed5"
    +:+ "d807aa9812835b01243185be550c7dc372be5d7480deb1fe9bdc06a7c19bf174"
    +:+ "e49b69c1efbe47860fc19dc6240ca1cc2de92c6f4a7484aa5cb0a9dc76f988da"
    +:+ "983e5152a831c66db00327c8bf597fc7c6e00bf3d5a7914706ca635114292967"
    +:+ "27b70a852e1b21384d2c6dfc53380d13650a7354766a0abb81c2c92e92722c85"
    +:+ "a2bfe8a1a81a664bc24b8b70c76c51a3d192e819d6990624f40e3585106aa070"
    +:+ "19a4c1161e376c082748774c34b0bcb5391c0cb34ed8aa4a5b9cca4f682e6ff3"
    +:+ "748f82ee78a5636f84c878148cc7020890befffaa4506cebbef9a3f7c67178f2").

(** Initial hash value: first 32 bits of the fractional parts of the square
    roots of the first 8 primes. *)
Definition H0 : list Z := hex_words "6a09e667bb67ae853c6ef372a54ff53a510e527f9b05688c1f83d9ab5be0cd19".

(** Big-endian 32-bit words of a block. *)
Fixpoint be_words (bs : list Z) : list Z :=
  match bs with
  | b0 :: b1 :: b2 :: b3 :: rest =>
      (b0 * 2^24 + b1 * 2^16 + b2 * 2^8 + b3) :: be_words rest
  | _ => []
  end.

(** Message schedule: extend the 16 words of a block to 64. *)
Fixpoint schedule (n : nat) (w : list Z) : list Z :=
  match n with
  | O => w
  | S n' =>
      let t := length w in
      let get i := nth i w 0 in
      schedule n' (w ++ [add32 (add32 (sigma1 (get (t - 2)%nat)) (get (t - 7)%nat))
                               (add32 (sigma0 (get (t - 15)%nat)) (get (t - 16)%nat))])
  end.

Definition round (st : list Z) (kw : Z * Z) : list Z :=
  match st with
  | [a; b; c; d; e; f; g; h] =>
      let T1 := add32 (add32 (add32 (add32 h (Sigma1 e)) (Ch e f g)) (fst kw)) (snd kw) in
      let T2 := add32 (Sigma0 a) (Maj a b c) in
      [add32 T1 T2; a; b; c; add32 d T1; e; f; g]
  | _ => st
  end.

Definition compress (H : list Z) (block : list Z) : list Z :=
  let W := schedule 48 (be_words block) in
  let st := fold_left round (combine K W) H in
  map (fun xy => add32 (fst xy) (snd xy)) (combine H st).

Fixpoint blocks (fuel : nat) (bs : list Z) : list (list Z) :=
  match fuel with
  | O => []
  | S f => match bs with [] => [] | _ => firstn 64 bs :: blocks f (skipn 64 bs) end
  end.

Definition be_bytes (n : nat) (x : Z) : list Z :=
  map (fun i => Z.land (Z.shiftr x (8 * Z.of_nat (n - 1 - i))) 255) (seq 0 n).

Definition pad (msg : list Z) : list Z :=
  let len := Z.of_nat (length msg) in
  msg ++ [0x80] ++ repeat 0 (Z.to_nat ((55 - len) mod 64)) ++ be_bytes 8 (8 * len).

Definition digest (msg : list Z) : list Z :=
  let p := pad msg in
  flat_map (be_bytes 4) (fold_left compress (blocks (length p) p) H0).

End SHA256.

(** [int.from_bytes(hashlib.sha256(namespace.encode("utf-8")).digest()[:2], "big")] *)
Definition sha256_prefix16 (namespace : string) : Z :=
  match SHA256.digest (bytes_of_string namespace) with
  | b0 :: b1 :: _ => b0 * 256 + b1
  | _ => 0
  end.

(** ** [allocator.py] *)

Record Allocation := mkAllocation {
  rd : string;
  import_rt : string;
  export_rt : string
}.

Definition as_tuple (a : Allocation) : string * string * string :=
  (rd a, import_rt a, export_rt a).

Record DeterministicAllocator := mkDeterministicAllocator {
  _rd_base : Z;
  _rt_base : Z;
  _max_id : Z;
  _registry : gmap string Allocation;
  _reverse : gmap Z string
}.

(** [DeterministicAllocator(rd_base, rt_base, max_id=65535)] *)
Definition new_allocator (rd_base rt_base max_id : Z) : DeterministicAllocator :=
  mkDeterministicAllocator rd_base rt_base max_id ∅ ∅.

(** [_hash_namespace]: [% self._max_id] raises when [max_id] is 0. *)
Definition _hash_namespace (a : DeterministicAllocator) (namespace : string) : PyExc + Z :=
  if Z.eqb (_max_id a) 0 then inl ZeroDivisionError
  else inr (sha256_prefix16 namespace mod _max_id a).

Definition _format_rd (a : DeterministicAllocator) (identifier : Z) : string :=
  str_Z (_rd_base a) +:+ ":" +:+ str_Z identifier.

Definition _format_rt (a : DeterministicAllocator) (identifier : Z) : string :=
  str_Z (_rt_base a) +:+ ":" +:+ str_Z identifier.

(** Outcome of the [while] loop of [allocate]: the free candidate, the
    [raise RuntimeError] after a full cycle, or running out of the fuel that
    bounds the Rocq recursion (shown unreachable for [max_id > 0]). *)
Inductive probe_outcome := Free (c : Z) | Exhausted | OutOfFuel.

(** [while candidate in self._reverse and self._reverse[candidate] != namespace:
        candidate = (candidate + 1) % self._max_id
        if candidate == start: raise RuntimeError(...)] *)
Fixpoint probe (reverse : gmap Z string) (namespace : string) (max_id start : Z)
    (fuel : nat) (candidate : Z) : probe_outcome :=
  match fuel with
  | O => OutOfFuel
  | S f =>
      match reverse !! candidate with
      | Some owner =>
          if String.eqb owner namespace then Free candidate
          else
            let candidate' := (candidate + 1) mod max_id in
            if Z.eqb candidate' start then Exhausted
            else probe reverse namespace max_id start f candidate'
      | None => Free candidate
      end
  end.

Definition exhausted_msg : string := "Allocator exhausted identifier space".

(** [DeterministicAllocator.allocate]; the allocator is mutated only after
    the loop, so every [raise] leaves it as it was. *)
Definition allocate (namespace : string) (a : DeterministicAllocator)
    : (PyExc + Allocation) * DeterministicAllocator :=
  match _registry a !! namespace with
  | Some al => (inr al, a)
  | None =>
      match _hash_namespace a namespace with
      | inl e => (inl e, a)
      | inr candidate =>
          match probe (_reverse a) namespace (_max_id a) candidate
                      (Z.to_nat (Z.abs (_max_id a))) candidate with
          | Free c =>
              let allocation := mkAllocation (_format_rd a c) (_format_rt a c) (_format_rt a c) in
              (inr allocation,
               mkDeterministicAllocator (_rd_base a) (_rt_base a) (_max_id a)
                 (<[namespace := allocation]> (_registry a))
                 (<[c := namespace]> (_reverse a)))
          | Exhausted | OutOfFuel => (inl (RuntimeError exhausted_msg), a)
          end
      end
  end.

(** [DeterministicAllocator.lookup] *)
Definition lookup (a : DeterministicAllocator) (namespace : string) : option Allocation :=
  _registry a !! namespace.

(** A sequence of [allocate] calls on one instance, whatever their outcome. *)
Fixpoint allocate_all (nss : list string) (a : DeterministicAllocator) : DeterministicAllocator :=
  match nss with
  | [] => a
  | ns :: rest => allocate_all rest (snd (allocate ns a))
  end.

(** ** [config.py] *)

Inductive AddressFamily := VPNV4 | VPNV6.

#[global] Instance AddressFamily_eq_dec : EqDecision AddressFamily.
Proof. solve_decision. Defined.

Record Neighbor := mkNeighbor {
  address : string;
  remote_asn : Z;
  families : list AddressFamily;
  description : option string
}.

(** [VRFDefinition]; the fields [rd] and [label] are prefixed with [vrf_]
    since record projections share one name space in Rocq. *)
Record VRFDefinition := mkVRFDefinition {
  name : string;
  vrf_rd : string;
  import_rts : list string;
  export_rts : list string;
  vrf_label : Z
}.

Record GlobalConfig := mkGlobalConfig {
  local_asn : Z;
  router_id : string;
  rd_base : Z;
  rt_base : Z;
  neighbours : list Neighbor;
  vrf_label_base : Z;
  export_ipv6 : bool
}.

Record TenantContext := mkTenantContext {
  namespace : string;
  vrf : VRFDefinition;
  advertised_prefixes : list string
}.

(** [x in xs] for a list of strings *)
Definition str_in (x : string) (xs : list string) : bool := existsb (String.eqb x) xs.

(** [xs.remove(x)] after [x in xs]: drops the first occurrence. *)
Fixpoint list_remove (x : string) (xs : list string) : list string :=
  match xs with
  | [] => []
  | y :: rest => if String.eqb y x then rest else y :: list_remove x rest
  end.

(** [TenantContext.add_prefixes]:
    [missing = [p for p in prefixes if p not in self.advertised_prefixes]]
    [self.advertised_prefixes.extend(missing)] *)
Definition add_prefixes (t : TenantContext) (prefixes : list string) : TenantContext :=
  let missing := List.filter (fun p => negb (str_in p (advertised_prefixes t))) prefixes in
  mkTenantContext (namespace t) (vrf t) (advertised_prefixes t ++ missing).

(** [TenantContext.withdraw_prefixes] *)
Definition withdraw_prefixes (t : TenantContext) (prefixes : list string) : TenantContext :=
  mkTenantContext (namespace t) (vrf t)
    (fold_left (fun adv p => if str_in p adv then list_remove p adv else adv)
               prefixes (advertised_prefixes t)).

(** [tenant.set_prefixes(desired)]: the [TenantContext] dataclass of
    [config.py] defines [add_prefixes] and [withdraw_prefixes] only, so the
    attribute lookup raises [AttributeError]. *)
Definition TenantContext_set_prefixes (t : TenantContext) (desired : list string)
    : PyExc + TenantContext :=
  inl (AttributeError "set_prefixes").

(** [list(dict.fromkeys(prefixes))]: first occurrences, in order. *)
Definition fromkeys (xs : list string) : list string :=
  fold_left (fun acc x => if str_in x acc then acc else acc ++ [x]) xs [].

(** ** [frr.py] *)

Definition FRR_HEADER : string :=
  "!" +:+ nl +:+ "frr version 9.x" +:+ nl +:+ "frr defaults traditional" +:+ nl
  +:+ "service integrated-vtysh-config" +:+ nl +:+ "!" +:+ nl.

Record RenderResult := mkRenderResult {
  config_text : string;
  output_path : string
}.

Record FRRConfigRenderer := mkFRRConfigRenderer {
  r_config : GlobalConfig;
  _output_dir : string;
  _include_globals : bool
}.

Definition has_family (f : AddressFamily) (fs : list AddressFamily) : bool :=
  existsb (fun g => bool_decide (g = f)) fs.

(** [FRRConfigRenderer._render_neighbor_block] *)
Definition _render_neighbor_block (cfg : GlobalConfig) (n : Neighbor) : list string :=
  let lines := [" neighbor " +:+ address n +:+ " remote-as " +:+ str_Z (remote_asn n)] in
  let lines :=
    match description n with
    | Some d =>
        if String.eqb d "" then lines
        else lines ++ [" neighbor " +:+ address n +:+ " description " +:+ d]
    | None => lines
    end in
  let lines :=
    if has_family VPNV4 (families n) then
      lines ++ ["!"; " address-family ipv4 vpn";
                "  neighbor " +:+ address n +:+ " activate";
                "  neighbor " +:+ address n +:+ " send-community extended";
                " exit-address-family"]
    else lines in
  let lines :=
    if has_family VPNV6 (families n) && export_ipv6 cfg then
      lines ++ ["!"; " address-family ipv6 vpn";
                "  neighbor " +:+ address n +:+ " activate";
                "  neighbor " +:+ address n +:+ " send-community extended";
                " exit-address-family"]
    else lines in
  lines.

(** [FRRConfigRenderer._render_neighbors] *)
Definition _render_neighbors (cfg : GlobalConfig) (ns : list Neighbor) : string :=
  join nl (["router bgp " +:+ str_Z (local_asn cfg);
            " bgp router-id " +:+ router_id cfg;
            " no bgp default ipv4-unicast"]
           ++ flat_map (_render_neighbor_block cfg) ns).

(** The [lines] list built by [FRRConfigRenderer._render_bgp_vrf_block]. *)
Definition bgp_vrf_block_lines (cfg : GlobalConfig) (v : VRFDefinition) (prefixes : list string)
    : list string :=
  let lines := ["router bgp " +:+ str_Z (local_asn cfg) +:+ " vrf " +:+ name v] in
  let lines := lines ++ [" no bgp network import-check"] in
  let lines := lines ++ [" !"] in
  let lines := lines ++ [" address-family ipv4 unicast"] in
  let lines := lines ++ ["  export vpn"] in
  let lines := lines ++ ["  import vpn"] in
  let lines := lines ++ ["  redistribute static"] in
  let lines := lines ++ ["  rd vpn export " +:+ vrf_rd v] in
  let lines := lines ++ map (fun rt => "  route-target vpn import " +:+ rt) (import_rts v) in
  let lines := lines ++ map (fun rt => "  route-target vpn export " +:+ rt) (export_rts v) in
  let lines :=
    match prefixes with
    | _ :: _ => lines ++ map (fun prefix => "  network " +:+ prefix) prefixes
    | [] => lines ++ ["  ! no prefixes advertised yet"]
    end in
  let lines := lines ++ [" exit-address-family"] in
  lines ++ ["!"].

(** [FRRConfigRenderer._render_bgp_vrf_block] *)
Definition _render_bgp_vrf_block (cfg : GlobalConfig) (v : VRFDefinition) (prefixes : list string)
    : string :=
  join nl (bgp_vrf_block_lines cfg v prefixes).

(** [FRRConfigRenderer._render_vrfs] *)
Definition _render_vrfs (cfg : GlobalConfig) (tenants : list TenantContext) : string :=
  join nl (map (fun t => _render_bgp_vrf_block cfg (vrf t) (advertised_prefixes t)) tenants).

(** [FRRConfigRenderer._render_route_maps] *)
Definition _render_route_maps : string :=
  join nl ["route-map vpnv4-import permit 10"; " !"; "route-map vpnv4-export permit 10"; " !"].

(** The [sections] list of [FRRConfigRenderer.render]. *)
Definition render_sections (r : FRRConfigRenderer) (tenants : list TenantContext) : list string :=
  let cfg := r_config r in
  let neighbor_addresses := map address (neighbours cfg) in
  let sections : list string := [] in
  let sections :=
    if _include_globals r then sections ++ [FRR_HEADER; _render_neighbors cfg (neighbours cfg)]
    else sections in
  let vrfs := _render_vrfs cfg tenants in
  let sections := if negb (String.eqb vrfs "") then sections ++ [vrfs] else sections in
  if _include_globals r then
    let sections :=
      match neighbor_addresses with
      | _ :: _ => sections ++ [_render_route_maps]
      | [] => sections
      end in
    sections ++ ["line vty"; "!"]
  else
    match neighbor_addresses with
    | _ :: _ => sections ++ [_render_route_maps]
    | [] => sections
    end.

(** [body = "\n".join([s for s in sections if s])] *)
Definition render_body (r : FRRConfigRenderer) (tenants : list TenantContext) : string :=
  join nl (List.filter (fun s => negb (String.eqb s "")) (render_sections r tenants)).

Definition render_output_path (r : FRRConfigRenderer) : string :=
  _output_dir r +:+ "/vpnv4.conf".

(** ** [driver.py] *)

(** Python dict operations on an insertion-ordered association list. *)
Section PyDict.
Context {V : Type}.

(** [d.get(k)] *)
Fixpoint dict_get (k : string) (d : list (string * V)) : option V :=
  match d with
  | [] => None
  | (k', v) :: rest => if String.eqb k' k then Some v else dict_get k rest
  end.

(** [d[k] = v]: an existing key keeps its position, a new key goes last. *)
Fixpoint dict_set (k : string) (v : V) (d : list (string * V)) : list (string * V) :=
  match d with
  | [] => [(k, v)]
  | (k', v') :: rest => if String.eqb k' k then (k', v) :: rest else (k', v') :: dict_set k v rest
  end.

(** [d.pop(k, None)]: the popped value and the dict left behind. *)
Fixpoint dict_pop (k : string) (d : list (string * V)) : option V * list (string * V) :=
  match d with
  | [] => (None, [])
  | (k', v) :: rest =>
      if String.eqb k' k then (Some v, rest)
      else let (o, rest') := dict_pop k rest in (o, (k', v) :: rest')
  end.

End PyDict.

Record DriverState := mkDriverState {
  tenants : list (string * TenantContext);
  last_render : option RenderResult
}.

Record VPNv4RouteDriver := mkVPNv4RouteDriver {
  _config : GlobalConfig;
  _allocator : DeterministicAllocator;
  _state : DriverState;
  _renderer : FRRConfigRenderer
}.

(** The driver together with the files written by the renderer
    (path to contents; creating the output directory is assumed to succeed). *)
Record World := mkWorld {
  driver : VPNv4RouteDriver;
  files : gmap string string
}.

(** [VPNv4RouteDriver(config, output_dir, allocator=None, include_globals=False)] *)
Definition new_driver (config : GlobalConfig) (output_dir : string)
    (allocator : option DeterministicAllocator) (include_globals : bool) : VPNv4RouteDriver :=
  mkVPNv4RouteDriver config
    (match allocator with
     | Some a => a
     | None => new_allocator (rd_base config) (rt_base config) 65535
     end)
    (mkDriverState [] None)
    (mkFRRConfigRenderer config output_dir include_globals).

(** A method of the driver: its outcome (an exception or a value) and the
    world it leaves behind. *)
Definition PyM (A : Type) : Type := World -> (PyExc + A) * World.

Definition py_ret {A} (a : A) : PyM A := fun w => (inr a, w).
Definition py_raise {A} (e : PyExc) : PyM A := fun w => (inl e, w).
Definition py_bind {A B} (m : PyM A) (k : A -> PyM B) : PyM B :=
  fun w => match m w with
           | (inl e, w') => (inl e, w')
           | (inr a, w') => k a w'
           end.

Notation "x <-- m ;; k" := (py_bind m (fun x => k)) (at level 100, m at next level, right associativity).
Notation "m ;;; k" := (py_bind m (fun _ => k)) (at level 100, right associativity).

Definition get_world : PyM World := fun w => (inr w, w).
Definition put_world (w : World) : PyM unit := fun _ => (inr tt, w).

Definition set_driver (w : World) (d : VPNv4RouteDriver) : World := mkWorld d (files w).

Definition set_tenants (d : VPNv4RouteDriver) (ts : list (string * TenantContext)) : VPNv4RouteDriver :=
  mkVPNv4RouteDriver (_config d) (_allocator d) (mkDriverState ts (last_render (_state d))) (_renderer d).

Definition set_allocator (d : VPNv4RouteDriver) (a : DeterministicAllocator) : VPNv4RouteDriver :=
  mkVPNv4RouteDriver (_config d) a (_state d) (_renderer d).

Definition set_last_render (d : VPNv4RouteDriver) (r : RenderResult) : VPNv4RouteDriver :=
  mkVPNv4RouteDriver (_config d) (_allocator d) (mkDriverState (tenants (_state d)) (Some r)) (_renderer d).

Definition get_tenants : PyM (list (string * TenantContext)) :=
  fun w => (inr (tenants (_state (driver w))), w).

Definition put_tenants (ts : list (string * TenantContext)) : PyM unit :=
  fun w => (inr tt, set_driver w (set_tenants (driver w) ts)).

(** [self._allocator.allocate(namespace)] *)
Definition call_allocate (namespace : string) : PyM Allocation :=
  fun w => let (res, a') := allocate namespace (_allocator (driver w)) in
           (res, set_driver w (set_allocator (driver w) a')).

(** [FRRConfigRenderer.render]: builds the body and overwrites the file. *)
Definition renderer_render (r : FRRConfigRenderer) (ts : list TenantContext) : PyM RenderResult :=
  fun w =>
    let body := render_body r ts in
    let path := render_output_path r in
    (inr (mkRenderResult body path), mkWorld (driver w) (<[path := body]> (files w))).

(** [VPNv4RouteDriver.render] *)
Definition render : PyM RenderResult :=
  w <-- get_world ;;
  let d := driver w in
  result <-- renderer_render (_renderer d) (map snd (tenants (_state d))) ;;
  w' <-- get_world ;;
  put_world (set_driver w' (set_last_render (driver w') result)) ;;;
  py_ret result.

(** [VPNv4RouteDriver.sync] *)
Definition sync : PyM RenderResult := render.

(** [VPNv4RouteDriver.ensure_namespace] *)
Definition ensure_namespace (namespace : string) : PyM TenantContext :=
  ts <-- get_tenants ;;
  match dict_get namespace ts with
  | Some t => py_ret t
  | None =>
      allocation <-- call_allocate namespace ;;
      let v := mkVRFDefinition namespace (rd allocation) [import_rt allocation]
                               [export_rt allocation] 0 in
      let tenant := mkTenantContext namespace v [] in
      ts' <-- get_tenants ;;
      put_tenants (dict_set namespace tenant ts') ;;;
      py_ret tenant
  end.

(** [VPNv4RouteDriver.withdraw_namespace] *)
Definition withdraw_namespace (namespace : string) : PyM (option TenantContext) :=
  ts <-- get_tenants ;;
  let (tenant, ts') := dict_pop namespace ts in
  put_tenants ts' ;;;
  match tenant with
  | Some t => render ;;; py_ret (Some t)
  | None => py_ret None
  end.

(** [VPNv4RouteDriver.advertise_prefixes]; the tenant object is shared with
    the dict, so mutating it updates the dict entry. *)
Definition advertise_prefixes (namespace : string) (prefixes : list string) : PyM TenantContext :=
  tenant <-- ensure_namespace namespace ;;
  let tenant' := add_prefixes tenant prefixes in
  ts <-- get_tenants ;;
  put_tenants (dict_set namespace tenant' ts) ;;;
  render ;;;
  py_ret tenant'.

(** [VPNv4RouteDriver.withdraw_prefixes] *)
Definition driver_withdraw_prefixes (namespace : string) (prefixes : list string)
    : PyM (option TenantContext) :=
  ts <-- get_tenants ;;
  match dict_get namespace ts with
  | None => py_ret None
  | Some tenant =>
      let tenant' := withdraw_prefixes tenant prefixes in
      put_tenants (dict_set namespace tenant' ts) ;;;
      render ;;;
      py_ret (Some tenant')
  end.

(** [VPNv4RouteDriver.synchronize_prefixes] *)
Definition synchronize_prefixes (namespace : string) (prefixes : list string) : PyM TenantContext :=
  tenant <-- ensure_namespace namespace ;;
  let desired := fromkeys prefixes in
  if bool_decide (advertised_prefixes tenant = desired) then py_ret tenant
  else
    match TenantContext_set_prefixes tenant desired with
    | inl e => py_raise e
    | inr tenant' =>
        ts <-- get_tenants ;;
        put_tenants (dict_set namespace tenant' ts) ;;;
        render ;;;
        py_ret tenant'
    end.

(** [VPNv4RouteDriver.get_rendered_config] *)
Definition get_rendered_config (d : VPNv4RouteDriver) : option string :=
  match last_render (_state d) with
  | Some r => Some (config_text r)
  | None => None
  end.

(** [VPNv4RouteDriver.list_tenants] *)
Definition list_tenants (d : VPNv4RouteDriver) : list TenantContext := map snd (tenants (_state d)).

(** ** Concrete inputs: the configuration of [tests/unit/test_driver.py] *)

Definition lab_config : GlobalConfig :=
  mkGlobalConfig 65000 "10.0.0.2" 65000 65000
    [mkNeighbor "172.31.100.11" 65100 [VPNV4] None] 0 false.

Definition lab_world : World := mkWorld (new_driver lab_config "/tmp/out" None false) ∅.

(** A lab world with two tenants, one of them advertising a prefix, after
    a render: a last render is recorded and the output file is written. *)
Definition rendered_world : World :=
  snd (advertise_prefixes "tenant-a" ["10.244.0.0/24"]
         (snd (ensure_namespace "tenant-b" (snd (ensure_namespace "tenant-a" lab_world))))).

(** Number of (possibly overlapping) occurrences of [pat] in [s]. *)
Fixpoint count_sub (pat s : string) : nat :=
  match s with
  | EmptyString => 0
  | String _ rest => (if String.prefix pat s then 1 else 0) + count_sub pat rest
  end.

(** ** Allocator invariant

    Every bound identifier points to a registered namespace whose
    allocation is formatted from that identifier; every registered namespace
    owns an identifier; no namespace owns two identifiers. *)
Definition alloc_of (a : DeterministicAllocator) (i : Z) : Allocation :=
  mkAllocation (_format_rd a i) (_format_rt a i) (_format_rt a i).

Definition alloc_inv (a : DeterministicAllocator) : Prop :=
  (forall i n, _reverse a !! i = Some n -> _registry a !! n = Some (alloc_of a i)) /\
  (forall n al, _registry a !! n = Some al -> exists i, _reverse a !! i = Some n) /\
  (forall i j n, _reverse a !! i = Some n -> _reverse a !! j = Some n -> i = j).

(** A line of the VRF block that advertises a prefix. *)
Definition is_network_line (s : string) : bool := String.prefix "  network " s.

Definition no_prefix_marker : string := "  ! no prefixes advertised yet".

(** The address-family sub-block of a neighbour, as described by the spec:
    activation and extended-community propagation. *)
Definition neighbor_af_subblock (afi addr : string) : list string :=
  ["!"; " address-family " +:+ afi +:+ " vpn";
   "  neighbor " +:+ addr +:+ " activate";
   "  neighbor " +:+ addr +:+ " send-community extended";
   " exit-address-family"].

Definition full_world : World :=
  mkWorld (new_driver lab_config "/tmp/out"
             (Some (allocate_all ["tenant-b"] (new_allocator 65000 65000 1))) false) ∅.

Definition lab_tenant : TenantContext :=
  mkTenantContext "tenant-a"
    (mkVRFDefinition "tenant-a" "65000:32935" ["65000:32935"] ["65000:32935"] 0)
    ["10.244.0.0/24"].

(** ** Helpers of the extra properties *)

(** The tenant [ensure_namespace] builds from an allocation. *)
Definition tenant_of (ns : string) (al : Allocation) : TenantContext :=
  mkTenantContext ns (mkVRFDefinition ns (rd al) [import_rt al] [export_rt al] 0) [].

(** Driver invariant: the tenant dict has unique keys, the allocator keeps
    its bijection, and each tracked tenant is keyed by its namespace, names
    its VRF after it and carries the RD/RTs formatted from the identifier
    the allocator bound to it. *)
Definition driver_inv (d : VPNv4RouteDriver) : Prop :=
  NoDup (map fst (tenants (_state d))) /\
  alloc_inv (_allocator d) /\
  (forall k t, In (k, t) (tenants (_state d)) ->
     namespace t = k /\ name (vrf t) = k /\
     exists i, _reverse (_allocator d) !! i = Some k /\
       vrf_rd (vrf t) = _format_rd (_allocator d) i /\
       import_rts (vrf t) = [_format_rt (_allocator d) i] /\
       export_rts (vrf t) = [_format_rt (_allocator d) i]).

(** Every bound identifier lies in [[0, max_id)]. *)
Definition alloc_range (a : DeterministicAllocator) : Prop :=
  forall i n, _reverse a !! i = Some n -> 0 <= i < _max_id a.

(** ** [vpnv4_agent/config.py]: the address families of a neighbour entry *)

(** The exception [_parse_neighbor] raises. *)
Inductive AgentExc :=
  | ValueError (msg : string).

(** [str.upper] on ASCII letters; bytes of other characters are kept.
    Python's [upper] also maps some non-ASCII letters, none of them to one
    of the letters of ["VPNV4"] or ["VPNV6"], so the comparisons below agree. *)
Definition ascii_upper (c : ascii) : ascii :=
  let n := nat_of_ascii c in
  if (97 <=? n)%nat && (n <=? 122)%nat then ascii_of_nat (n - 32) else c.

Fixpoint str_upper (s : string) : string :=
  match s with
  | EmptyString => EmptyString
  | String c rest => String (ascii_upper c) (str_upper rest)
  end.

(** The [for fam in families_raw] loop of [_parse_neighbor]. *)
Fixpoint parse_families_go (raw : list string) : AgentExc + list AddressFamily :=
  match raw with
  | [] => inr []
  | fam :: rest =>
      let fam_upper := str_upper fam in
      if String.eqb fam_upper "VPNV4" then
        match parse_families_go rest with inl e => inl e | inr fs => inr (VPNV4 :: fs) end
      else if String.eqb fam_upper "VPNV6" then
        match parse_families_go rest with inl e => inl e | inr fs => inr (VPNV6 :: fs) end
      else inl (ValueError ("Unsupported address family '" +:+ fam +:+ "'"))
  end.

(** [if families_raw: ... else: families_tuple = (AddressFamily.VPNV4,)];
    [None] is a missing (or null) [families] key. *)
Definition _parse_families (families_raw : option (list string)) : AgentExc + list AddressFamily :=
  match families_raw with
  | Some ((_ :: _) as raw) => parse_families_go raw
  | _ => inr [VPNV4]
  end.

(** A neighbour entry of the YAML file, with [address] a string and
    [remote_asn] an integer. *)
Record NeighborEntry := mkNeighborEntry {
  entry_address : string;
  entry_remote_asn : Z;
  entry_families : option (list string);
  entry_description : option string
}.

(** [_parse_neighbor] *)
Definition _parse_neighbor (entry : NeighborEntry) : AgentExc + Neighbor :=
  match _parse_families (entry_families entry) with
  | inl e => inl e
  | inr fs => inr (mkNeighbor (entry_address entry) (entry_remote_asn entry) fs
                              (entry_description entry))
  end.

(** [VRFDefinition.all_route_targets] *)
Definition all_route_targets (v : VRFDefinition) : list string :=
  fromkeys (import_rts v ++ export_rts v).

(** [GlobalConfig.neighbour_for] *)
Definition neighbour_for (cfg : GlobalConfig) (addr : string) : option Neighbor :=
  List.find (fun n => String.eqb (address n) addr) (neighbours cfg).

(** A lab driver that has ensured two namespaces. *)
Definition two_tenant_world : World :=
  snd (ensure_namespace "tenant-b" (snd (ensure_namespace "tenant-a" lab_world))).

(** ** Lemmas *)

Lemma dict_pop_absent {V} (k : string) (d : list (string * V)) :
  dict_get k d = None -> dict_pop k d = (None, d).
Proof.
  induction d as [|[k' v] rest IH]; simpl; [done|].
  destruct (String.eqb k' k); [done|]. intros H. by rewrite IH.
Qed.

Lemma set_driver_id (w : World) : set_driver w (driver w) = w.
Proof. by destruct w. Qed.

Lemma set_tenants_id (d : VPNv4RouteDriver) : set_tenants d (tenants (_state d)) = d.
Proof. destruct d as [c a [ts lr] r]. reflexivity. Qed.

Lemma set_allocator_id (d : VPNv4RouteDriver) : set_allocator d (_allocator d) = d.
Proof. by destruct d. Qed.

Lemma allocate_registry_hit (n : string) (a : DeterministicAllocator) (al : Allocation) :
  _registry a !! n = Some al -> allocate n a = (inr al, a).
Proof. intros H. unfold allocate. by rewrite H. Qed.

Lemma probe_free (rev : gmap Z string) ns m start fuel c c' :
  probe rev ns m start fuel c = Free c' -> rev !! c' = None \/ rev !! c' = Some ns.
Proof.
  revert c. induction fuel as [|f IH]; intros c; simpl; [discriminate|].
  destruct (rev !! c) as [owner|] eqn:Hc.
  - destruct (String.eqb owner ns) eqn:Ho.
    + apply String.eqb_eq in Ho. subst. intros [= <-]. by right.
    + destruct (Z.eqb _ start); [discriminate|]. apply IH.
  - intros [= <-]. by left.
Qed.

(** Allocation changes nothing but the new binding. *)
Lemma allocate_cases (n : string) (a : DeterministicAllocator) :
  snd (allocate n a) = a \/
  exists c, _registry a !! n = None /\
    (_reverse a !! c = None \/ _reverse a !! c = Some n) /\
    fst (allocate n a) = inr (alloc_of a c) /\
    snd (allocate n a) = mkDeterministicAllocator (_rd_base a) (_rt_base a) (_max_id a)
        (<[n := alloc_of a c]> (_registry a)) (<[c := n]> (_reverse a)).
Proof.
  unfold allocate. destruct (_registry a !! n) eqn:Hr; [by left|].
  destruct (_hash_namespace a n) as [e|cand]; [by left|].
  destruct (probe _ _ _ _ _ _) as [c| |] eqn:Hp; [|by left|by left].
  right. exists c. split; [done|]. split; [by eapply probe_free|]. done.
Qed.

Lemma allocate_keeps_registry (n m : string) (a : DeterministicAllocator) (al : Allocation) :
  _registry a !! n = Some al -> _registry (snd (allocate m a)) !! n = Some al.
Proof.
  intros H. destruct (allocate_cases m a) as [-> | (c & Hm & _ & _ & ->)]; [done|].
  simpl. rewrite lookup_insert_ne; [done|]. intros ->. congruence.
Qed.

Lemma allocate_all_keeps_registry (n : string) (nss : list string) (a : DeterministicAllocator)
    (al : Allocation) :
  _registry a !! n = Some al -> _registry (allocate_all nss a) !! n = Some al.
Proof.
  revert a. induction nss as [|m rest IH]; intros a H; simpl; [done|].
  apply IH. by apply allocate_keeps_registry.
Qed.

Lemma allocate_ok_registers (n : string) (a a1 : DeterministicAllocator) (al : Allocation) :
  allocate n a = (inr al, a1) -> _registry a1 !! n = Some al.
Proof.
  intros H. destruct (_registry a !! n) as [al'|] eqn:Hr.
  - rewrite (allocate_registry_hit _ _ _ Hr) in H. injection H as -> ->. done.
  - destruct (allocate_cases n a) as [Hs | (c & _ & _ & Hf & Hs)].
    + rewrite H in Hs. simpl in Hs. subst a1.
      unfold allocate in H. rewrite Hr in H.
      destruct (_hash_namespace a n); [discriminate|].
      destruct (probe _ _ _ _ _ _) eqn:Hp; try discriminate.
      injection H as _ Ha. rewrite <- Ha in Hr. simpl in Hr. by rewrite lookup_insert_eq in Hr.
    + rewrite H in Hf, Hs. simpl in Hf, Hs. injection Hf as ->. subst a1. simpl.
      apply lookup_insert_eq.
Qed.

Lemma alloc_inv_new (rd_base rt_base max_id : Z) : alloc_inv (new_allocator rd_base rt_base max_id).
Proof.
  unfold alloc_inv, new_allocator; simpl.
  split; [|split]; intros *; rewrite ?lookup_empty; discriminate.
Qed.

Lemma allocate_preserves_inv (n : string) (a : DeterministicAllocator) :
  alloc_inv a -> alloc_inv (snd (allocate n a)).
Proof.
  intros Hinv. destruct (allocate_cases n a) as [-> | (c & Hn & Hc & _ & ->)]; [done|].
  destruct Hinv as (H1 & H2 & H3).
  assert (Hc' : _reverse a !! c = None).
  { destruct Hc as [|Hc]; [done|]. apply H1 in Hc. congruence. }
  assert (Hnotrev : forall i, _reverse a !! i <> Some n).
  { intros i Hi. apply H1 in Hi. congruence. }
  unfold alloc_inv, alloc_of in *; simpl. split; [|split].
  - intros i m Hi. destruct (decide (i = c)) as [->|Hic].
    + rewrite lookup_insert_eq in Hi. injection Hi as <-. by rewrite lookup_insert_eq.
    + rewrite lookup_insert_ne in Hi by congruence.
      assert (m <> n) by (intros ->; by apply (Hnotrev i)).
      rewrite lookup_insert_ne by congruence. by apply H1.
  - intros m al Hm. destruct (decide (m = n)) as [->|Hmn].
    + exists c. apply lookup_insert_eq.
    + rewrite lookup_insert_ne in Hm by congruence.
      destruct (H2 _ _ Hm) as [i Hi]. exists i.
      rewrite lookup_insert_ne; [done|]. intros ->. congruence.
  - intros i j m Hi Hj.
    destruct (decide (i = c)) as [->|Hic]; destruct (decide (j = c)) as [->|Hjc]; try done.
    + rewrite lookup_insert_eq in Hi. rewrite lookup_insert_ne in Hj by congruence.
      injection Hi as <-. exfalso. by apply (Hnotrev j).
    + rewrite lookup_insert_eq in Hj. rewrite lookup_insert_ne in Hi by congruence.
      injection Hj as <-. exfalso. by apply (Hnotrev i).
    + rewrite lookup_insert_ne in Hi, Hj by congruence. by apply (H3 i j m).
Qed.

Lemma allocate_all_preserves_inv (nss : list string) (a : DeterministicAllocator) :
  alloc_inv a -> alloc_inv (allocate_all nss a).
Proof.
  revert a. induction nss as [|n rest IH]; intros a H; simpl; [done|].
  apply IH. by apply allocate_preserves_inv.
Qed.

(** When every identifier of [[0, max_id)] is bound to another namespace,
    the probe never finds a free slot. *)
Lemma probe_full (rev : gmap Z string) ns m start fuel c :
  0 < m -> 0 <= c < m ->
  (forall i, 0 <= i < m -> exists o, rev !! i = Some o /\ o <> ns) ->
  probe rev ns m start fuel c = Exhausted \/ probe rev ns m start fuel c = OutOfFuel.
Proof.
  intros Hm. revert c. induction fuel as [|f IH]; intros c Hcr Hfull; simpl; [by right|].
  destruct (Hfull c Hcr) as (o & Ho & Hne). rewrite Ho.
  destruct (String.eqb o ns) eqn:Heq; [apply String.eqb_eq in Heq; congruence|].
  destruct (Z.eqb _ start); [by left|].
  apply IH; [|done]. apply Z.mod_pos_bound. lia.
Qed.

(** The probe of [allocate] is bounded: it never needs more than
    [max_id] iterations, it stops at the latest when it comes back to
    [start]. *)
Lemma probe_terminates_from (rev : gmap Z string) ns m start f i :
  0 < m -> 0 <= start < m -> 0 <= i < m -> (Z.of_nat f + i = m)%Z ->
  probe rev ns m start f ((start + i) mod m) <> OutOfFuel.
Proof.
  intros Hm Hs. revert i. induction f as [|f IH]; intros i Hi Hf; [lia|].
  simpl. destruct (rev !! _) as [owner|]; [|discriminate].
  destruct (String.eqb owner ns); [discriminate|].
  rewrite Z.add_mod_idemp_l by lia.
  destruct (Z.eqb ((start + i + 1) mod m) start) eqn:He; [discriminate|].
  apply Z.eqb_neq in He.
  assert (Hi1 : i + 1 < m).
  { destruct (Z.eq_dec (i + 1) m) as [Heq|]; [|lia]. exfalso. apply He.
    replace (start + i + 1) with (start + 1 * m) by lia.
    rewrite Z.mod_add by lia. apply Z.mod_small. lia. }
  replace (start + i + 1) with (start + (i + 1)) by lia.
  apply IH; lia.
Qed.

Lemma probe_terminates (rev : gmap Z string) ns m start :
  0 < m -> 0 <= start < m -> probe rev ns m start (Z.to_nat (Z.abs m)) start <> OutOfFuel.
Proof.
  intros Hm Hs.
  replace start with ((start + 0) mod m) at 2 by (rewrite Z.add_0_r; apply Z.mod_small; lia).
  apply probe_terminates_from; lia.
Qed.

(** ** Claims *)

(** C4: on one allocator instance, whatever sequence of [allocate] calls was
    made, the namespace-to-identifier mapping stays a bijection (the
    invariant [alloc_inv]) and two distinct allocated namespaces hold
    distinct identifiers, each allocation being formatted from its
    namespace's identifier. *)
Theorem allocator_collision_free (rd_base rt_base max_id : Z) (nss : list string)
    (n1 n2 : string) (al1 al2 : Allocation) :
  n1 <> n2 ->
  _registry (allocate_all nss (new_allocator rd_base rt_base max_id)) !! n1 = Some al1 ->
  _registry (allocate_all nss (new_allocator rd_base rt_base max_id)) !! n2 = Some al2 ->
  alloc_inv (allocate_all nss (new_allocator rd_base rt_base max_id)) /\
  exists i1 i2, i1 <> i2 /\
    _reverse (allocate_all nss (new_allocator rd_base rt_base max_id)) !! i1 = Some n1 /\
    _reverse (allocate_all nss (new_allocator rd_base rt_base max_id)) !! i2 = Some n2 /\
    al1 = alloc_of (allocate_all nss (new_allocator rd_base rt_base max_id)) i1 /\
    al2 = alloc_of (allocate_all nss (new_allocator rd_base rt_base max_id)) i2.
Proof.
  set (a := allocate_all nss (new_allocator rd_base rt_base max_id)).
  intros Hne H1 H2.
  assert (Hinv : alloc_inv a) by (apply allocate_all_preserves_inv, alloc_inv_new).
  split; [done|].
  destruct Hinv as (Hr & Hrg & _).
  destruct (Hrg _ _ H1) as [i1 Hi1]. destruct (Hrg _ _ H2) as [i2 Hi2].
  exists i1, i2. split; [intros ->; congruence|].
  split; [done|]. split; [done|].
  apply Hr in Hi1, Hi2. split; congruence.
Qed.

Lemma allocator_collision_free_witness :
  exists i1 i2, i1 <> i2 /\
    _reverse (allocate_all ["tenant-a"; "tenant-b"] (new_allocator 65000 65000 2)) !! i1 = Some "tenant-a" /\
    _reverse (allocate_all ["tenant-a"; "tenant-b"] (new_allocator 65000 65000 2)) !! i2 = Some "tenant-b" /\
    mkAllocation "65000:1" "65000:1" "65000:1"
      = alloc_of (allocate_all ["tenant-a"; "tenant-b"] (new_allocator 65000 65000 2)) i1 /\
    mkAllocation "65000:0" "65000:0" "65000:0"
      = alloc_of (allocate_all ["tenant-a"; "tenant-b"] (new_allocator 65000 65000 2)) i2.
Proof.
  apply (allocator_collision_free 65000 65000 2 ["tenant-a"; "tenant-b"] "tenant-a" "tenant-b"
           (mkAllocation "65000:1" "65000:1" "65000:1") (mkAllocation "65000:0" "65000:0" "65000:0"));
    [discriminate | vm_compute; reflexivity | vm_compute; reflexivity].
Defined.

(** C5: once [allocate n] has returned an allocation, a later [allocate n]
    on the same instance, after any other allocations, returns the same
    allocation and leaves the instance unchanged. *)
Theorem allocate_idempotent (n : string) (others : list string) (a a1 : DeterministicAllocator)
    (al : Allocation) :
  allocate n a = (inr al, a1) ->
  allocate n (allocate_all others a1) = (inr al, allocate_all others a1).
Proof.
  intros H. apply allocate_registry_hit, allocate_all_keeps_registry.
  by eapply allocate_ok_registers.
Qed.

Lemma allocate_idempotent_witness :
  allocate "tenant-a" (allocate_all ["tenant-b"; "ns1"]
                         (snd (allocate "tenant-a" (new_allocator 65000 65000 16))))
  = (inr (mkAllocation "65000:7" "65000:7" "65000:7"),
     allocate_all ["tenant-b"; "ns1"] (snd (allocate "tenant-a" (new_allocator 65000 65000 16)))).
Proof.
  apply (allocate_idempotent "tenant-a" ["tenant-b"; "ns1"] (new_allocator 65000 65000 16)).
  vm_compute. reflexivity.
Defined.

(** C6: when every identifier of [[0, max_id)] is bound to another
    namespace, [allocate] raises the exhaustion [RuntimeError] without
    touching the allocator, [ensure_namespace] propagates it and leaves the
    whole world (tenant map, allocator, last render, files) as it was, and
    the probing loop is bounded (it never runs past one full cycle). *)
Theorem ensure_namespace_exhausted (w : World) (ns : string) :
  0 < _max_id (_allocator (driver w)) ->
  dict_get ns (tenants (_state (driver w))) = None ->
  _registry (_allocator (driver w)) !! ns = None ->
  (forall i, 0 <= i < _max_id (_allocator (driver w)) ->
     exists o, _reverse (_allocator (driver w)) !! i = Some o /\ o <> ns) ->
  allocate ns (_allocator (driver w)) = (inl (RuntimeError exhausted_msg), _allocator (driver w)) /\
  ensure_namespace ns w = (inl (RuntimeError exhausted_msg), w) /\
  (forall (rev : gmap Z string) start, 0 <= start < _max_id (_allocator (driver w)) ->
     probe rev ns (_max_id (_allocator (driver w))) start
           (Z.to_nat (Z.abs (_max_id (_allocator (driver w))))) start <> OutOfFuel).
Proof.
  set (a := _allocator (driver w)). intros Hm Ht Hr Hfull.
  assert (Ha : allocate ns a = (inl (RuntimeError exhausted_msg), a)).
  { unfold allocate, _hash_namespace. rewrite Hr.
    destruct (Z.eqb_spec (_max_id a) 0) as [|_]; [lia|].
    destruct (probe_full (_reverse a) ns (_max_id a) (sha256_prefix16 ns mod _max_id a)
                (Z.to_nat (Z.abs (_max_id a))) (sha256_prefix16 ns mod _max_id a))
      as [-> | ->]; try done.
    apply Z.mod_pos_bound. lia. }
  split; [done|]. split.
  - unfold ensure_namespace, py_bind, get_tenants. rewrite Ht.
    unfold call_allocate. fold a. rewrite Ha. simpl.
    unfold a. rewrite set_allocator_id. by rewrite set_driver_id.
  - intros rev start Hs. by apply probe_terminates.
Qed.

Lemma ensure_namespace_exhausted_witness :
  ensure_namespace "tenant-a" full_world = (inl (RuntimeError exhausted_msg), full_world).
Proof.
  apply (ensure_namespace_exhausted full_world "tenant-a");
    [vm_compute; reflexivity | vm_compute; reflexivity | vm_compute; reflexivity |].
  intros i Hi. change (0 <= i < 1) in Hi. assert (i = 0) as -> by lia.
  exists "tenant-b". split; [vm_compute; reflexivity | discriminate].
Defined.

(** C10: [withdraw_namespace] of a namespace the driver does not track
    returns [None] and leaves the world unchanged: tenants, allocator, last
    render and the rendered file. *)
Theorem withdraw_namespace_unknown (w : World) (ns : string) :
  dict_get ns (tenants (_state (driver w))) = None ->
  withdraw_namespace ns w = (inr None, w).
Proof.
  intros H. unfold withdraw_namespace, py_bind, get_tenants, put_tenants.
  rewrite (dict_pop_absent _ _ H). simpl.
  by rewrite set_tenants_id, set_driver_id.
Qed.

Lemma withdraw_namespace_unknown_witness :
  withdraw_namespace "demo" rendered_world = (inr None, rendered_world) /\
  map namespace (list_tenants (driver rendered_world)) = ["tenant-a"; "tenant-b"] /\
  get_rendered_config (driver rendered_world) <> None /\
  files rendered_world !! "/tmp/out/vpnv4.conf" = get_rendered_config (driver rendered_world).
Proof.
  split; [apply withdraw_namespace_unknown; vm_compute; reflexivity|].
  split; [vm_compute; reflexivity|]. split; [vm_compute; discriminate|].
  vm_compute. reflexivity.
Defined.

(** ** Renderer lemmas *)

(** Let [simpl] reduce [String.append] when its first argument is a literal. *)
#[local] Arguments String.append : simpl nomatch.

Lemma string_app_nil_l (s : string) : "" +:+ s = s.
Proof. reflexivity. Qed.

Lemma string_app_cons (c : ascii) (s t : string) : String c s +:+ t = String c (s +:+ t).
Proof. reflexivity. Qed.

Lemma string_app_assoc (s1 s2 s3 : string) : (s1 +:+ s2) +:+ s3 = s1 +:+ (s2 +:+ s3).
Proof.
  induction s1 as [|c s IH]; [done|]. rewrite !string_app_cons. by f_equal.
Qed.

Lemma string_app_nil_r (s : string) : s +:+ "" = s.
Proof. induction s as [|c s IH]; [done|]. rewrite string_app_cons. by f_equal. Qed.

Lemma prefix_app (s t : string) : String.prefix s (s +:+ t) = true.
Proof.
  induction s as [|c s IH]; [by destruct t|]. rewrite string_app_cons. simpl.
  destruct (ascii_dec c c); [done|congruence].
Qed.

Lemma filter_network_nil (f : string -> string) (l : list string) :
  (forall x, is_network_line (f x) = false) ->
  List.filter is_network_line (map f l) = [].
Proof.
  intros Hf. induction l as [|x l IH]; simpl; [done|]. by rewrite Hf.
Qed.

Lemma filter_network_all (l : list string) :
  List.filter is_network_line (map (fun p => "  network " +:+ p) l)
  = map (fun p => "  network " +:+ p) l.
Proof.
  induction l as [|x l IH]; [done|]. cbn [map List.filter].
  unfold is_network_line at 1. rewrite prefix_app. by f_equal.
Qed.

Lemma marker_not_in_map (f : string -> string) (l : list string) :
  (forall x, String.eqb no_prefix_marker (f x) = false) ->
  existsb (String.eqb no_prefix_marker) (map f l) = false.
Proof.
  intros Hf. induction l as [|x l IH]; [done|].
  cbn [map existsb]. by rewrite Hf, IH.
Qed.

Lemma join_cons_cons (sep x : string) (l : list string) :
  l <> [] -> join sep (x :: l) = x +:+ sep +:+ join sep l.
Proof. destruct l; [done|]. reflexivity. Qed.

Lemma join_app (sep : string) (l1 l2 : list string) :
  l1 <> [] -> l2 <> [] -> join sep (l1 ++ l2) = join sep l1 +:+ sep +:+ join sep l2.
Proof.
  intros H1 H2. induction l1 as [|x l1 IH]; [done|].
  destruct (decide (l1 = [])) as [->|Hne].
  - simpl. by apply join_cons_cons.
  - rewrite <- app_comm_cons, join_cons_cons by (destruct l1; done).
    rewrite IH by done. rewrite (join_cons_cons _ _ _ Hne).
    by rewrite !string_app_assoc.
Qed.

(** Joining a joined sub-list with the same separator flattens it. *)
Lemma join_flatten (sep : string) (A B C : list string) :
  B <> [] -> join sep (A ++ [join sep B] ++ C) = join sep (A ++ B ++ C).
Proof.
  intros HB.
  destruct (decide (A = [])) as [->|HA]; destruct (decide (C = [])) as [->|HC].
  - cbn [app]. by rewrite !app_nil_r.
  - cbn [app]. rewrite join_cons_cons by done. by rewrite join_app.
  - rewrite !app_nil_r. rewrite !join_app by done. reflexivity.
  - rewrite (join_app _ A) by (destruct C; done).
    rewrite (join_app _ A) by (destruct B; done).
    cbn [app]. rewrite join_cons_cons by done. by rewrite join_app.
Qed.

Lemma join_cons_nonempty (sep x : string) (l : list string) :
  String.eqb x "" = false -> String.eqb (join sep (x :: l)) "" = false.
Proof. destruct l, x; done. Qed.

Lemma filter_nonempty_id (l : list string) :
  Forall (fun s => String.eqb s "" = false) l ->
  List.filter (fun s => negb (String.eqb s "")) l = l.
Proof.
  induction 1 as [|x l Hx _ IH]; [done|]. simpl. rewrite Hx. simpl. by f_equal.
Qed.

Lemma vrf_block_nonempty (cfg : GlobalConfig) (v : VRFDefinition) (ps : list string) :
  String.eqb (_render_bgp_vrf_block cfg v ps) "" = false.
Proof. destruct ps; vm_compute; reflexivity. Qed.

Lemma render_sections_layout (r : FRRConfigRenderer) (ts : list TenantContext) :
  render_sections r ts =
    (if _include_globals r then [FRR_HEADER; _render_neighbors (r_config r) (neighbours (r_config r))] else [])
    ++ (match ts with [] => [] | _ :: _ => [_render_vrfs (r_config r) ts] end)
    ++ (match neighbours (r_config r) with [] => [] | _ :: _ => [_render_route_maps] end)
    ++ (if _include_globals r then ["line vty"; "!"] else []).
Proof.
  unfold render_sections.
  assert (Hv : String.eqb (_render_vrfs (r_config r) ts) "" =
               match ts with [] => true | _ :: _ => false end).
  { destruct ts as [|t ts]; [done|]. unfold _render_vrfs. cbn [map].
    apply join_cons_nonempty. apply vrf_block_nonempty. }
  rewrite Hv.
  destruct (_include_globals r), ts as [|t ts], (neighbours (r_config r)) as [|nb nbs];
    cbn [map negb app]; rewrite <- ?app_assoc; reflexivity.
Qed.

(** C9: in the lines of a tenant's VRF block, the [network] lines are
    exactly one ["  network <prefix>"] per advertised prefix, in the
    tenant's prefix order (none when it advertises nothing); the
    placeholder comment line appears exactly when the prefix list is empty,
    and it is not a [network] line. *)
Theorem vrf_block_prefix_lines (cfg : GlobalConfig) (v : VRFDefinition) (prefixes : list string) :
  List.filter is_network_line (bgp_vrf_block_lines cfg v prefixes)
    = map (fun p => "  network " +:+ p) prefixes /\
  str_in no_prefix_marker (bgp_vrf_block_lines cfg v prefixes)
    = match prefixes with [] => true | _ :: _ => false end /\
  is_network_line no_prefix_marker = false.
Proof.
  unfold bgp_vrf_block_lines, str_in.
  destruct prefixes as [|p ps]; rewrite !List.filter_app, !existsb_app;
    rewrite (filter_network_nil (fun rt => "  route-target vpn import " +:+ rt)) by reflexivity;
    rewrite (filter_network_nil (fun rt => "  route-target vpn export " +:+ rt)) by reflexivity;
    rewrite (marker_not_in_map (fun rt => "  route-target vpn import " +:+ rt)) by reflexivity;
    rewrite (marker_not_in_map (fun rt => "  route-target vpn export " +:+ rt)) by reflexivity.
  - simpl. done.
  - rewrite filter_network_all.
    rewrite (marker_not_in_map (fun p => "  network " +:+ p) (p :: ps)) by reflexivity.
    simpl. by rewrite !app_nil_r.
Qed.

(** C7 (as amended): a neighbour's block declares it with its remote ASN,
    adds a description line when the description is a non-empty string,
    then an [ipv4 vpn] sub-block when [VPNV4] is among the neighbour's
    families, and an [ipv6 vpn] sub-block when [VPNV6] is among them and
    [export_ipv6] is set; nothing else. *)
Theorem neighbor_block_shape (cfg : GlobalConfig) (n : Neighbor) :
  _render_neighbor_block cfg n =
    (" neighbor " +:+ address n +:+ " remote-as " +:+ str_Z (remote_asn n))
    :: (match description n with
        | Some d => if String.eqb d "" then [] else [" neighbor " +:+ address n +:+ " description " +:+ d]
        | None => []
        end)
    ++ (if has_family VPNV4 (families n) then neighbor_af_subblock "ipv4" (address n) else [])
    ++ (if has_family VPNV6 (families n) && export_ipv6 cfg
        then neighbor_af_subblock "ipv6" (address n) else []).
Proof.
  unfold _render_neighbor_block, neighbor_af_subblock.
  destruct (description n) as [d|]; [destruct (String.eqb d "")|];
    destruct (has_family VPNV4 (families n)); destruct (has_family VPNV6 (families n) && export_ipv6 cfg);
    cbn [app]; rewrite <- ?app_assoc; reflexivity.
Qed.

(** C7 counterexample: a neighbour configured for [VPNV6] only, with
    [export_ipv6] unset, gets no [ipv4 vpn] sub-block (no sub-block at all). *)
Lemma neighbor_block_vpnv6_only :
  _render_neighbor_block lab_config (mkNeighbor "172.31.100.11" 65100 [VPNV6] None)
    = [" neighbor 172.31.100.11 remote-as 65100"] /\
  str_in " address-family ipv4 vpn"
    (_render_neighbor_block lab_config (mkNeighbor "172.31.100.11" 65100 [VPNV6] None)) = false.
Proof. split; vm_compute; reflexivity. Qed.

(** C8 (as amended): the rendered text is the join, with a single newline
    between consecutive parts (no blank line is inserted between them), of:
    the header and the neighbour section (only when global sections are
    rendered), one VRF block per tenant in tenant-list order, the route-map
    stanzas (when any neighbour is configured), and the lines ["line vty"]
    and ["!"] (only when global sections are rendered).  The header itself
    ends with a newline, so when global sections are rendered the text
    begins with the header's five lines, one blank line, and then the
    neighbour section's ["router bgp <local_asn>"]. *)
Theorem render_layout (r : FRRConfigRenderer) (ts : list TenantContext) :
  render_body r ts =
    join nl ((if _include_globals r
              then [FRR_HEADER; _render_neighbors (r_config r) (neighbours (r_config r))] else [])
             ++ map (fun t => _render_bgp_vrf_block (r_config r) (vrf t) (advertised_prefixes t)) ts
             ++ (match neighbours (r_config r) with [] => [] | _ :: _ => [_render_route_maps] end)
             ++ (if _include_globals r then ["line vty"; "!"] else [])) /\
  (if _include_globals r
   then exists rest, render_body r ts =
          "!" +:+ nl +:+ "frr version 9.x" +:+ nl +:+ "frr defaults traditional" +:+ nl
          +:+ "service integrated-vtysh-config" +:+ nl +:+ "!" +:+ nl
          +:+ nl +:+ "router bgp " +:+ str_Z (local_asn (r_config r)) +:+ rest
   else True).
Proof.
  assert (H : render_body r ts =
    join nl ((if _include_globals r
              then [FRR_HEADER; _render_neighbors (r_config r) (neighbours (r_config r))] else [])
             ++ map (fun t => _render_bgp_vrf_block (r_config r) (vrf t) (advertised_prefixes t)) ts
             ++ (match neighbours (r_config r) with [] => [] | _ :: _ => [_render_route_maps] end)
             ++ (if _include_globals r then ["line vty"; "!"] else []))).
  { unfold render_body. rewrite render_sections_layout.
    rewrite filter_nonempty_id.
    - destruct ts as [|t ts]; [reflexivity|].
      unfold _render_vrfs. apply join_flatten. discriminate.
    - rewrite !Forall_app. split; [|split; [|split]].
      + destruct (_include_globals r); repeat constructor.
      + destruct ts as [|t ts]; constructor; [|constructor].
        unfold _render_vrfs. cbn [map]. apply join_cons_nonempty, vrf_block_nonempty.
      + destruct (neighbours (r_config r)); repeat constructor.
      + destruct (_include_globals r); repeat constructor. }
  split; [exact H|]. rewrite H. destruct (_include_globals r); [|exact I].
  set (tl := map (fun t => _render_bgp_vrf_block (r_config r) (vrf t) (advertised_prefixes t)) ts
             ++ (match neighbours (r_config r) with [] => [] | _ :: _ => [_render_route_maps] end)
             ++ ["line vty"; "!"]).
  assert (Htl : tl <> []).
  { unfold tl. intros Hc. apply (f_equal length) in Hc.
    rewrite !length_app in Hc. simpl in Hc. lia. }
  cbn [app]. rewrite (join_cons_cons nl FRR_HEADER) by discriminate.
  rewrite (join_cons_cons nl (_render_neighbors _ _)) by exact Htl.
  unfold _render_neighbors. cbn [app]. rewrite join_cons_cons by discriminate.
  eexists. unfold FRR_HEADER. rewrite !string_app_assoc. reflexivity.
Qed.

(** C8 counterexample: with one neighbour and one tenant, the sections are
    separated by a single newline, not by a blank line.  Without global
    sections the text holds the VRF block and the route-map stanzas and no
    blank line at all; with them, the only blank line is the one the
    header's trailing newline leaves before the neighbour section. *)
Lemma render_no_blank_line :
  render_body (mkFRRConfigRenderer lab_config "/tmp/out" false) [lab_tenant]
    = _render_bgp_vrf_block lab_config (vrf lab_tenant) (advertised_prefixes lab_tenant)
      +:+ nl +:+ _render_route_maps /\
  count_sub (nl +:+ nl) (render_body (mkFRRConfigRenderer lab_config "/tmp/out" false) [lab_tenant])
    = 0%nat /\
  count_sub (nl +:+ nl) (render_body (mkFRRConfigRenderer lab_config "/tmp/out" true) [lab_tenant])
    = 1%nat /\
  String.prefix (FRR_HEADER +:+ nl +:+ "router bgp 65000")
    (render_body (mkFRRConfigRenderer lab_config "/tmp/out" true) [lab_tenant]) = true.
Proof. split; [|split; [|split]]; vm_compute; reflexivity. Qed.

(** C1 (code bug): on a fresh driver, [synchronize_prefixes("tenant-a",
    ["10.244.0.0/24"])] finds the stored list [[]] different from the desired
    one, calls [tenant.set_prefixes], which [TenantContext] does not define,
    and raises [AttributeError]: the stored list is not replaced, nothing is
    rendered, and the tenant registered by [ensure_namespace] stays. *)
Lemma synchronize_prefixes_attribute_error :
  fst (synchronize_prefixes "tenant-a" ["10.244.0.0/24"] lab_world)
    = inl (AttributeError "set_prefixes") /\
  map advertised_prefixes
    (list_tenants (driver (snd (synchronize_prefixes "tenant-a" ["10.244.0.0/24"] lab_world))))
    = [[]] /\
  get_rendered_config (driver (snd (synchronize_prefixes "tenant-a" ["10.244.0.0/24"] lab_world)))
    = None /\
  files (snd (synchronize_prefixes "tenant-a" ["10.244.0.0/24"] lab_world)) = ∅.
Proof. vm_compute. repeat split. Qed.

(** C2 (code bug): [advertise_prefixes("tenant-a", [p, p])] stores [p]
    twice ([missing] is computed against the list before the [extend]), and
    the rendered text has the line ["  network 10.244.0.0/24"] twice; the
    [synchronize_prefixes] example of the claim raises [AttributeError] and
    renders nothing. *)
Lemma advertise_prefixes_duplicates :
  map advertised_prefixes
    (list_tenants (driver (snd (advertise_prefixes "tenant-a"
                                  ["10.244.0.0/24"; "10.244.0.0/24"] lab_world))))
    = [["10.244.0.0/24"; "10.244.0.0/24"]] /\
  option_map (count_sub "network 10.244.0.0/24")
    (get_rendered_config (driver (snd (advertise_prefixes "tenant-a"
                                         ["10.244.0.0/24"; "10.244.0.0/24"] lab_world))))
    = Some 2%nat /\
  fst (synchronize_prefixes "tenant-a" ["10.244.0.0/24"; "10.244.0.0/24"] lab_world)
    = inl (AttributeError "set_prefixes") /\
  get_rendered_config
    (driver (snd (synchronize_prefixes "tenant-a" ["10.244.0.0/24"; "10.244.0.0/24"] lab_world)))
    = None.
Proof. vm_compute. repeat split. Qed.

(** C3 (code bug): calling [synchronize_prefixes("tenant-a",
    ["10.244.0.0/24"])] twice on a fresh driver raises [AttributeError] both
    times and renders nothing either time. *)
Lemma synchronize_prefixes_twice :
  fst (synchronize_prefixes "tenant-a" ["10.244.0.0/24"] lab_world)
    = inl (AttributeError "set_prefixes") /\
  fst (synchronize_prefixes "tenant-a" ["10.244.0.0/24"]
         (snd (synchronize_prefixes "tenant-a" ["10.244.0.0/24"] lab_world)))
    = inl (AttributeError "set_prefixes") /\
  get_rendered_config
    (driver (snd (synchronize_prefixes "tenant-a" ["10.244.0.0/24"]
                    (snd (synchronize_prefixes "tenant-a" ["10.244.0.0/24"] lab_world)))))
    = None.
Proof. vm_compute. repeat split. Qed.

(** ** Extra properties: list helpers of [config.py] *)

Lemma str_in_spec (x : string) (xs : list string) : str_in x xs = true <-> In x xs.
Proof.
  unfold str_in. rewrite existsb_exists. split.
  - intros (y & Hy & Hxy). apply String.eqb_eq in Hxy. by subst.
  - intros H. exists x. split; [done|]. apply String.eqb_refl.
Qed.

Lemma str_in_false (x : string) (xs : list string) : str_in x xs = false <-> ~ In x xs.
Proof. rewrite <- str_in_spec. destruct (str_in x xs); intuition congruence. Qed.

Lemma fromkeys_go_app (xs acc : list string) :
  exists extra, fold_left (fun acc x => if str_in x acc then acc else acc ++ [x]) xs acc = acc ++ extra.
Proof.
  revert acc. induction xs as [|x xs IH]; intros acc; simpl.
  - exists []. by rewrite app_nil_r.
  - destruct (str_in x acc).
    + apply IH.
    + destruct (IH (acc ++ [x])) as [e He]. exists (x :: e). by rewrite He, <- app_assoc.
Qed.

Lemma fromkeys_go_in (xs acc : list string) (y : string) :
  In y (fold_left (fun acc x => if str_in x acc then acc else acc ++ [x]) xs acc)
  <-> In y acc \/ In y xs.
Proof.
  revert acc. induction xs as [|x xs IH]; intros acc; simpl.
  - intuition.
  - destruct (str_in x acc) eqn:Hx; rewrite IH.
    + apply str_in_spec in Hx. split; [intuition|]. intros [H|[->|H]]; auto.
    + rewrite in_app_iff. simpl. intuition.
Qed.

Lemma fromkeys_go_nodup (xs acc : list string) :
  NoDup acc -> NoDup (fold_left (fun acc x => if str_in x acc then acc else acc ++ [x]) xs acc).
Proof.
  revert acc. induction xs as [|x xs IH]; intros acc Hacc; simpl; [done|].
  destruct (str_in x acc) eqn:Hx; apply IH; [done|].
  apply str_in_false in Hx. apply NoDup_app. split; [done|]. split.
  - intros y Hy Hy'. apply list_elem_of_singleton in Hy'. subst y.
    apply Hx, list_elem_of_In, Hy.
  - apply NoDup_singleton.
Qed.

Lemma fromkeys_go_id (xs acc : list string) :
  NoDup (acc ++ xs) ->
  fold_left (fun acc x => if str_in x acc then acc else acc ++ [x]) xs acc = acc ++ xs.
Proof.
  revert acc. induction xs as [|x xs IH]; intros acc H; simpl; [by rewrite app_nil_r|].
  assert (Hx : str_in x acc = false).
  { apply str_in_false. intros Hin. apply NoDup_app in H as (_ & Hd & _).
    apply (Hd x); apply list_elem_of_In; [done|by left]. }
  rewrite Hx, IH; [by rewrite <- app_assoc|]. by rewrite <- app_assoc.
Qed.

Lemma fromkeys_in (xs : list string) (y : string) : In y (fromkeys xs) <-> In y xs.
Proof. unfold fromkeys. rewrite fromkeys_go_in. simpl. intuition. Qed.

Lemma fromkeys_nodup (xs : list string) : NoDup (fromkeys xs).
Proof. apply fromkeys_go_nodup. constructor. Qed.

Lemma fromkeys_id (xs : list string) : NoDup xs -> fromkeys xs = xs.
Proof. intros H. unfold fromkeys. by rewrite fromkeys_go_id. Qed.

(** ** Extra properties: Python dict lemmas *)

Section PyDictLemmas.
Context {V : Type}.
Implicit Types (d : list (string * V)) (k : string) (v : V).

Lemma dict_get_set_eq k v d : dict_get k (dict_set k v d) = Some v.
Proof.
  induction d as [|[k' v'] d IH]; simpl; [by rewrite String.eqb_refl|].
  destruct (String.eqb k' k) eqn:E; simpl; rewrite E; [done|]. done.
Qed.

Lemma dict_get_set_ne k k2 v d : k <> k2 -> dict_get k2 (dict_set k v d) = dict_get k2 d.
Proof.
  intros Hne. induction d as [|[k' v'] d IH]; simpl.
  - destruct (String.eqb k k2) eqn:E; [apply String.eqb_eq in E; congruence|done].
  - destruct (String.eqb k' k) eqn:E; simpl.
    + apply String.eqb_eq in E. subst k'.
      destruct (String.eqb k k2) eqn:E2; [apply String.eqb_eq in E2; congruence|done].
    + by rewrite IH.
Qed.

Lemma dict_set_absent k v d : dict_get k d = None -> dict_set k v d = d ++ [(k, v)].
Proof.
  induction d as [|[k' v'] d IH]; simpl; [done|].
  destruct (String.eqb k' k); [discriminate|]. intros H. by rewrite IH.
Qed.

Lemma dict_get_in k v d : dict_get k d = Some v -> In (k, v) d.
Proof.
  induction d as [|[k' v'] d IH]; simpl; [discriminate|].
  destruct (String.eqb k' k) eqn:E.
  - apply String.eqb_eq in E. subst. intros [= ->]. by left.
  - intros H. right. by apply IH.
Qed.

Lemma dict_get_none k d : dict_get k d = None <-> ~ In k (map fst d).
Proof.
  induction d as [|[k' v'] d IH]; simpl; [intuition|].
  destruct (String.eqb k' k) eqn:E.
  - apply String.eqb_eq in E. subst. intuition discriminate.
  - apply String.eqb_neq in E. rewrite IH. intuition.
Qed.

Lemma in_dict_get k v d : NoDup (map fst d) -> In (k, v) d -> dict_get k d = Some v.
Proof.
  induction d as [|[k' v'] d IH]; simpl; [done|].
  intros Hnd Hin. apply NoDup_cons in Hnd as [Hk' Hnd].
  destruct (String.eqb k' k) eqn:E.
  - apply String.eqb_eq in E. subst k'. destruct Hin as [[= ->]|Hin]; [done|].
    exfalso. apply Hk'. apply list_elem_of_In, in_map_iff. by exists (k, v).
  - apply String.eqb_neq in E. destruct Hin as [[= -> ->]|Hin]; [done|]. by apply IH.
Qed.

Lemma dict_set_keys k v d :
  map fst (dict_set k v d) = if str_in k (map fst d) then map fst d else map fst d ++ [k].
Proof.
  induction d as [|[k' v'] d IH]; simpl; [done|].
  destruct (String.eqb k' k) eqn:E; simpl.
  - unfold str_in. simpl. by rewrite String.eqb_sym, E.
  - unfold str_in in *. simpl. rewrite String.eqb_sym, E. simpl. rewrite IH.
    by destruct (existsb _ _).
Qed.

Lemma dict_set_nodup k v d : NoDup (map fst d) -> NoDup (map fst (dict_set k v d)).
Proof.
  intros H. rewrite dict_set_keys. destruct (str_in k (map fst d)) eqn:B; [done|].
  apply str_in_false in B.
  apply NoDup_app. split; [done|]. split; [|apply NoDup_singleton].
  intros y Hy Hy'. apply list_elem_of_singleton in Hy'. subst y. by apply B, list_elem_of_In.
Qed.

Lemma dict_set_in k v d k2 v2 : In (k2, v2) (dict_set k v d) -> (k2, v2) = (k, v) \/ In (k2, v2) d.
Proof.
  induction d as [|[k' v'] d IH]; simpl; [intuition|].
  destruct (String.eqb k' k) eqn:E; simpl.
  - apply String.eqb_eq in E. subst. intros [[= <- <-]|H]; auto.
  - intros [H|H]; [auto|]. destruct (IH H); auto.
Qed.

Lemma filter_key_absent k d :
  ~ In k (map fst d) -> List.filter (fun kv => negb (String.eqb (fst kv) k)) d = d.
Proof.
  induction d as [|[k' v'] d IH]; simpl; [done|].
  intros Hk. destruct (String.eqb k' k) eqn:E.
  - apply String.eqb_eq in E. subst. exfalso. by apply Hk; left.
  - simpl. rewrite IH; [done|]. intros H. by apply Hk; right.
Qed.

Lemma dict_pop_spec k d :
  NoDup (map fst d) ->
  fst (dict_pop k d) = dict_get k d /\
  snd (dict_pop k d) = List.filter (fun kv => negb (String.eqb (fst kv) k)) d.
Proof.
  induction d as [|[k' v'] d IH]; simpl; [done|].
  intros Hnd. apply NoDup_cons in Hnd as [Hk' Hnd].
  destruct (String.eqb k' k) eqn:E; simpl.
  - split; [done|]. apply String.eqb_eq in E. subst k'.
    rewrite filter_key_absent; [done|]. intros H. by apply Hk', list_elem_of_In.
  - destruct (IH Hnd) as [H1 H2]. destruct (dict_pop k d) as [o rest]. simpl in *.
    split; [done|]. by rewrite H2.
Qed.

Lemma filter_keys_sub (P : string * V -> bool) d :
  forall k, In k (map fst (List.filter P d)) -> In k (map fst d).
Proof.
  intros k. rewrite !in_map_iff. intros (kv & Hk & Hin).
  apply filter_In in Hin as [Hin _]. by exists kv.
Qed.

Lemma filter_nodup_keys (P : string * V -> bool) d :
  NoDup (map fst d) -> NoDup (map fst (List.filter P d)).
Proof.
  induction d as [|[k' v'] d IH]; simpl; [done|].
  intros Hnd. apply NoDup_cons in Hnd as [Hk' Hnd].
  destruct (P (k', v')); simpl; [|by apply IH].
  constructor; [|by apply IH].
  intros Hin. apply Hk', list_elem_of_In. apply list_elem_of_In in Hin.
  by eapply filter_keys_sub.
Qed.

End PyDictLemmas.

(** ** Extra properties of [config.py] *)

Lemma filter_neq_absent (p : string) (l : list string) :
  ~ In p l -> List.filter (fun x => negb (String.eqb x p)) l = l.
Proof.
  induction l as [|y l IH]; simpl; [done|]. intros H.
  destruct (String.eqb y p) eqn:E.
  - apply String.eqb_eq in E. subst. exfalso. by apply H; left.
  - simpl. rewrite IH; [done|]. intros Hl. by apply H; right.
Qed.

Lemma list_remove_filter (p : string) (adv : list string) :
  NoDup adv -> list_remove p adv = List.filter (fun x => negb (String.eqb x p)) adv.
Proof.
  induction adv as [|y adv IH]; simpl; [done|].
  intros Hnd. apply NoDup_cons in Hnd as [Hy Hnd].
  destruct (String.eqb y p) eqn:E; simpl.
  - apply String.eqb_eq in E. subst y. rewrite filter_neq_absent; [done|].
    intros H. by apply Hy, list_elem_of_In.
  - by rewrite IH.
Qed.

Lemma filter_filter_str (f g : string -> bool) (l : list string) :
  List.filter f (List.filter g l) = List.filter (fun x => g x && f x) l.
Proof.
  induction l as [|x l IH]; simpl; [done|].
  destruct (g x); simpl; [destruct (f x); simpl; by rewrite IH|done].
Qed.

Lemma withdraw_fold_filter (prefixes adv : list string) :
  NoDup adv ->
  fold_left (fun adv p => if str_in p adv then list_remove p adv else adv) prefixes adv
  = List.filter (fun x => negb (str_in x prefixes)) adv.
Proof.
  revert adv. induction prefixes as [|p ps IH]; intros adv Hnd; simpl.
  - unfold str_in. simpl. induction adv as [|a adv IHa]; simpl; [done|].
    apply NoDup_cons in Hnd as [_ Hnd]. f_equal. by apply IHa.
  - assert (Hs : (if str_in p adv then list_remove p adv else adv)
                 = List.filter (fun x => negb (String.eqb x p)) adv).
    { destruct (str_in p adv) eqn:Hp; [by apply list_remove_filter|].
      apply str_in_false in Hp. by rewrite filter_neq_absent. }
    rewrite Hs, IH by (by apply NoDup_ListNoDup, List.NoDup_filter, NoDup_ListNoDup).
    rewrite filter_filter_str. apply List.filter_ext. intros x.
    unfold str_in. simpl. by destruct (String.eqb x p).
Qed.

Lemma add_prefixes_eq (t : TenantContext) (prefixes : list string) :
  advertised_prefixes (add_prefixes t prefixes)
  = advertised_prefixes t ++ List.filter (fun p => negb (str_in p (advertised_prefixes t))) prefixes.
Proof. reflexivity. Qed.

(** Extra X1: [VRFDefinition.all_route_targets] lists every import or export RT
    exactly once, and is the plain concatenation when that has no
    duplicate. *)
Theorem all_route_targets_union (v : VRFDefinition) :
  NoDup (all_route_targets v) /\
  (forall rt, In rt (all_route_targets v) <-> In rt (import_rts v) \/ In rt (export_rts v)) /\
  (NoDup (import_rts v ++ export_rts v) -> all_route_targets v = import_rts v ++ export_rts v).
Proof.
  unfold all_route_targets. split; [apply fromkeys_nodup|]. split.
  - intros rt. by rewrite fromkeys_in, in_app_iff.
  - apply fromkeys_id.
Qed.

(** Extra X2: [GlobalConfig.neighbour_for] returns [None] exactly when no
    neighbour has the address, and otherwise the first neighbour in
    configuration order that has it. *)
Theorem neighbour_for_first (cfg : GlobalConfig) (addr : string) :
  (neighbour_for cfg addr = None <-> forall n, In n (neighbours cfg) -> address n <> addr) /\
  (forall n, neighbour_for cfg addr = Some n ->
     address n = addr /\ In n (neighbours cfg) /\
     exists l1 l2, neighbours cfg = l1 ++ n :: l2 /\ forall m, In m l1 -> address m <> addr).
Proof.
  unfold neighbour_for. induction (neighbours cfg) as [|x l IH]; simpl.
  - split; [split; [intros _ n []|done]|discriminate].
  - destruct (String.eqb (address x) addr) eqn:E.
    + apply String.eqb_eq in E. split.
      * split; [discriminate|]. intros H. exfalso. by apply (H x); [left|].
      * intros n [= <-]. split; [done|]. split; [by left|].
        exists [], l. split; [done|]. intros m [].
    + apply String.eqb_neq in E. destruct IH as [IH1 IH2]. split.
      * rewrite IH1. split.
        -- intros H n [<-|Hn]; [done|by apply H].
        -- intros H n Hn. apply H. by right.
      * intros n Hn. destruct (IH2 n Hn) as (Ha & Hin & l1 & l2 & Hl & Hm).
        split; [done|]. split; [by right|].
        exists (x :: l1), l2. split; [by rewrite Hl|]. intros m [<-|Hm']; [done|by apply Hm].
Qed.

(** Extra X3: when neither the stored list nor the input has a duplicate,
    [TenantContext.add_prefixes] keeps the stored list as a prefix, adds
    exactly the missing prefixes, and leaves no duplicate. *)
Theorem add_prefixes_nodup (t : TenantContext) (prefixes : list string) :
  NoDup (advertised_prefixes t) -> NoDup prefixes ->
  NoDup (advertised_prefixes (add_prefixes t prefixes)) /\
  (exists missing, advertised_prefixes (add_prefixes t prefixes) = advertised_prefixes t ++ missing) /\
  (forall p, In p (advertised_prefixes (add_prefixes t prefixes))
             <-> In p (advertised_prefixes t) \/ In p prefixes).
Proof.
  intros Ht Hp. rewrite add_prefixes_eq. split; [|split].
  - apply NoDup_app. split; [done|]. split; [|by apply NoDup_ListNoDup, List.NoDup_filter, NoDup_ListNoDup].
    intros x Hx Hx'. apply list_elem_of_In in Hx, Hx'.
    apply filter_In in Hx' as [_ Hn]. apply negb_true_iff, str_in_false in Hn. done.
  - by eexists.
  - intros q. rewrite in_app_iff, filter_In. split; [intuition|].
    intros [Hq|Hq]; [by left|]. destruct (str_in q (advertised_prefixes t)) eqn:E.
    + left. by apply str_in_spec.
    + right. by split.
Qed.

Lemma add_prefixes_nodup_witness :
  NoDup (advertised_prefixes (add_prefixes lab_tenant ["10.244.0.0/24"; "10.244.1.0/24"])).
Proof.
  destruct (add_prefixes_nodup lab_tenant ["10.244.0.0/24"; "10.244.1.0/24"]) as [H _];
    [apply (bool_decide_unpack _); vm_compute; reflexivity
    |apply (bool_decide_unpack _); vm_compute; reflexivity
    |exact H].
Defined.

(** Extra X4: on a stored list without duplicates, [TenantContext.withdraw_prefixes]
    removes exactly the listed prefixes and keeps the order of the others. *)
Theorem withdraw_prefixes_filter (t : TenantContext) (prefixes : list string) :
  NoDup (advertised_prefixes t) ->
  advertised_prefixes (withdraw_prefixes t prefixes)
    = List.filter (fun p => negb (str_in p prefixes)) (advertised_prefixes t).
Proof. intros H. by apply withdraw_fold_filter. Qed.

Lemma withdraw_prefixes_filter_witness :
  advertised_prefixes
    (withdraw_prefixes
       (mkTenantContext "tenant-a" (vrf lab_tenant) ["10.244.0.0/24"; "10.244.1.0/24"; "10.244.2.0/24"])
       ["10.244.1.0/24"; "10.9.0.0/16"])
  = ["10.244.0.0/24"; "10.244.2.0/24"].
Proof.
  rewrite (withdraw_prefixes_filter
             (mkTenantContext "tenant-a" (vrf lab_tenant) ["10.244.0.0/24"; "10.244.1.0/24"; "10.244.2.0/24"])
             ["10.244.1.0/24"; "10.9.0.0/16"]);
    [reflexivity | apply (bool_decide_unpack _); vm_compute; reflexivity].
Defined.

(** ** Extra properties of [allocator.py] *)

Lemma probe_range (rev : gmap Z string) ns m start fuel c c' :
  0 < m -> 0 <= c < m -> probe rev ns m start fuel c = Free c' -> 0 <= c' < m.
Proof.
  intros Hm. revert c. induction fuel as [|f IH]; intros c Hc; simpl; [discriminate|].
  destruct (rev !! c) as [owner|].
  - destruct (String.eqb owner ns); [intros [= <-]; done|].
    destruct (Z.eqb _ start); [discriminate|]. apply IH. apply Z.mod_pos_bound. lia.
  - intros [= <-]. done.
Qed.

Lemma allocate_bases (n : string) (a : DeterministicAllocator) :
  _rd_base (snd (allocate n a)) = _rd_base a /\ _rt_base (snd (allocate n a)) = _rt_base a /\
  _max_id (snd (allocate n a)) = _max_id a.
Proof. destruct (allocate_cases n a) as [-> | (c & _ & _ & _ & ->)]; done. Qed.

Lemma allocate_all_bases (nss : list string) (a : DeterministicAllocator) :
  _rd_base (allocate_all nss a) = _rd_base a /\ _rt_base (allocate_all nss a) = _rt_base a /\
  _max_id (allocate_all nss a) = _max_id a.
Proof.
  revert a. induction nss as [|n rest IH]; intros a; simpl; [done|].
  destruct (IH (snd (allocate n a))) as (-> & -> & ->). apply allocate_bases.
Qed.

Lemma allocate_preserves_range (n : string) (a : DeterministicAllocator) :
  0 < _max_id a -> alloc_range a -> alloc_range (snd (allocate n a)).
Proof.
  intros Hm Hr. unfold allocate, _hash_namespace.
  destruct (_registry a !! n); [done|].
  destruct (Z.eqb_spec (_max_id a) 0); [lia|].
  destruct (probe _ _ _ _ _ _) as [c| |] eqn:Hp; try done.
  unfold alloc_range; simpl. intros i m Hi.
  destruct (decide (i = c)) as [->|Hic].
  - eapply probe_range; [done| |exact Hp]. apply Z.mod_pos_bound. lia.
  - rewrite lookup_insert_ne in Hi by congruence. by eapply Hr.
Qed.

Lemma allocate_all_preserves_range (nss : list string) (a : DeterministicAllocator) :
  0 < _max_id a -> alloc_range a -> alloc_range (allocate_all nss a).
Proof.
  revert a. induction nss as [|n rest IH]; intros a Hm Hr; simpl; [done|].
  apply IH; [by rewrite (proj2 (proj2 (allocate_bases n a)))|by apply allocate_preserves_range].
Qed.

(** Extra X6: with [max_id > 0], every allocation a fresh allocator hands out,
    whatever the calls before, is [<rd_base>:<i>] for the RD and
    [<rt_base>:<i>] for both RTs, with one identifier [i] in [[0, max_id)]. *)
Theorem allocate_all_in_range (rd_base rt_base max_id : Z) (nss : list string)
    (n : string) (al : Allocation) :
  0 < max_id ->
  _registry (allocate_all nss (new_allocator rd_base rt_base max_id)) !! n = Some al ->
  exists i, 0 <= i < max_id /\
    al = mkAllocation (str_Z rd_base +:+ ":" +:+ str_Z i)
                      (str_Z rt_base +:+ ":" +:+ str_Z i)
                      (str_Z rt_base +:+ ":" +:+ str_Z i).
Proof.
  intros Hm Hn.
  set (a := allocate_all nss (new_allocator rd_base rt_base max_id)) in *.
  assert (Hinv : alloc_inv a) by (apply allocate_all_preserves_inv, alloc_inv_new).
  assert (Hrange : alloc_range a).
  { apply allocate_all_preserves_range; [done|]. intros i m. simpl. by rewrite lookup_empty. }
  destruct (allocate_all_bases nss (new_allocator rd_base rt_base max_id)) as (Hrd & Hrt & Hmax).
  fold a in Hrd, Hrt, Hmax. simpl in Hrd, Hrt, Hmax.
  destruct Hinv as (H1 & H2 & _). destruct (H2 _ _ Hn) as [i Hi].
  exists i. split; [rewrite <- Hmax; by eapply Hrange|].
  apply H1 in Hi. rewrite Hn in Hi. injection Hi as ->.
  unfold alloc_of, _format_rd, _format_rt. by rewrite Hrd, Hrt.
Qed.

Lemma allocate_all_in_range_witness :
  exists i, 0 <= i < 65535 /\
    mkAllocation "65000:32935" "65000:32935" "65000:32935"
    = mkAllocation (str_Z 65000 +:+ ":" +:+ str_Z i)
                   (str_Z 65000 +:+ ":" +:+ str_Z i)
                   (str_Z 65000 +:+ ":" +:+ str_Z i).
Proof.
  apply (allocate_all_in_range 65000 65000 65535 ["tenant-a"; "tenant-b"] "tenant-a");
    [lia | vm_compute; reflexivity].
Defined.

(** Extra X7: when the hashed slot [sha256(namespace)[:2] % max_id] of a new
    namespace is free, [allocate] takes it without probing and records the
    namespace in both maps. *)
Theorem allocate_hashed_slot (n : string) (a : DeterministicAllocator) :
  _registry a !! n = None -> _max_id a <> 0 ->
  _reverse a !! (sha256_prefix16 n mod _max_id a) = None ->
  allocate n a =
    (inr (alloc_of a (sha256_prefix16 n mod _max_id a)),
     mkDeterministicAllocator (_rd_base a) (_rt_base a) (_max_id a)
       (<[n := alloc_of a (sha256_prefix16 n mod _max_id a)]> (_registry a))
       (<[sha256_prefix16 n mod _max_id a := n]> (_reverse a))).
Proof.
  intros Hr Hm Hs. unfold allocate, _hash_namespace. rewrite Hr.
  destruct (Z.eqb_spec (_max_id a) 0); [done|].
  destruct (Z.to_nat (Z.abs (_max_id a))) eqn:Hf; [lia|].
  simpl. rewrite Hs. reflexivity.
Qed.

Lemma allocate_hashed_slot_witness :
  allocate "tenant-a" (new_allocator 65000 65000 65535) =
    (inr (alloc_of (new_allocator 65000 65000 65535) (sha256_prefix16 "tenant-a" mod 65535)),
     mkDeterministicAllocator 65000 65000 65535
       (<["tenant-a" := alloc_of (new_allocator 65000 65000 65535) (sha256_prefix16 "tenant-a" mod 65535)]> ∅)
       (<[sha256_prefix16 "tenant-a" mod 65535 := "tenant-a"]> ∅)).
Proof.
  apply (allocate_hashed_slot "tenant-a" (new_allocator 65000 65000 65535));
    [reflexivity | discriminate | vm_compute; reflexivity].
Defined.

(** Extra X8: with [max_id = 0], allocating a new namespace raises
    [ZeroDivisionError] (from [% self._max_id]) and changes nothing, and
    [ensure_namespace] propagates it leaving the whole world unchanged. *)
Theorem ensure_namespace_zero_max_id (w : World) (ns : string) :
  _max_id (_allocator (driver w)) = 0 ->
  dict_get ns (tenants (_state (driver w))) = None ->
  _registry (_allocator (driver w)) !! ns = None ->
  allocate ns (_allocator (driver w)) = (inl ZeroDivisionError, _allocator (driver w)) /\
  ensure_namespace ns w = (inl ZeroDivisionError, w).
Proof.
  intros Hm Ht Hr.
  assert (Ha : allocate ns (_allocator (driver w)) = (inl ZeroDivisionError, _allocator (driver w))).
  { unfold allocate, _hash_namespace. rewrite Hr, Hm. reflexivity. }
  split; [done|].
  unfold ensure_namespace, py_bind, get_tenants. rewrite Ht.
  unfold call_allocate. rewrite Ha. simpl. by rewrite set_allocator_id, set_driver_id.
Qed.

Lemma ensure_namespace_zero_max_id_witness :
  ensure_namespace "tenant-a"
    (mkWorld (new_driver lab_config "/tmp/out" (Some (new_allocator 65000 65000 0)) false) ∅)
  = (inl ZeroDivisionError,
     mkWorld (new_driver lab_config "/tmp/out" (Some (new_allocator 65000 65000 0)) false) ∅).
Proof.
  apply (ensure_namespace_zero_max_id
           (mkWorld (new_driver lab_config "/tmp/out" (Some (new_allocator 65000 65000 0)) false) ∅)
           "tenant-a"); reflexivity.
Defined.

(** Extra X9: after [allocate n] returns an allocation, [lookup n] returns it and
    [lookup] of every other namespace is as before. *)
Theorem allocate_then_lookup (n : string) (a a1 : DeterministicAllocator) (al : Allocation) :
  allocate n a = (inr al, a1) ->
  lookup a1 n = Some al /\ forall m, m <> n -> lookup a1 m = lookup a m.
Proof.
  intros H. split; [by eapply allocate_ok_registers|].
  intros m Hmn. unfold lookup.
  destruct (allocate_cases n a) as [Hs | (c & _ & _ & _ & Hs)]; rewrite H in Hs; simpl in Hs;
    subst a1; [done|]. simpl. by rewrite lookup_insert_ne by congruence.
Qed.

Lemma allocate_then_lookup_witness :
  lookup (snd (allocate "tenant-b" (allocate_all ["tenant-a"] (new_allocator 65000 65000 65535)))) "tenant-b"
    = Some (mkAllocation "65000:57195" "65000:57195" "65000:57195").
Proof.
  destruct (allocate_then_lookup "tenant-b" (allocate_all ["tenant-a"] (new_allocator 65000 65000 65535))
              (snd (allocate "tenant-b" (allocate_all ["tenant-a"] (new_allocator 65000 65000 65535))))
              (mkAllocation "65000:57195" "65000:57195" "65000:57195")) as [H1 _];
    [vm_compute; reflexivity|].
  exact H1.
Defined.

(** ** Extra properties of [driver.py] *)

Lemma ensure_namespace_tracked (w : World) (ns : string) (t : TenantContext) :
  dict_get ns (tenants (_state (driver w))) = Some t -> ensure_namespace ns w = (inr t, w).
Proof. intros H. unfold ensure_namespace, py_bind, get_tenants. by rewrite H. Qed.

Lemma ensure_namespace_new_ok (w : World) (ns : string) (al : Allocation) (a' : DeterministicAllocator) :
  dict_get ns (tenants (_state (driver w))) = None ->
  allocate ns (_allocator (driver w)) = (inr al, a') ->
  ensure_namespace ns w =
    (inr (tenant_of ns al),
     set_driver w (set_tenants (set_allocator (driver w) a')
                     (dict_set ns (tenant_of ns al) (tenants (_state (driver w)))))).
Proof.
  intros Ht Ha. unfold ensure_namespace, py_bind, get_tenants. rewrite Ht.
  unfold call_allocate. rewrite Ha. reflexivity.
Qed.

Lemma ensure_namespace_new_err (w : World) (ns : string) (e : PyExc) (a' : DeterministicAllocator) :
  dict_get ns (tenants (_state (driver w))) = None ->
  allocate ns (_allocator (driver w)) = (inl e, a') ->
  ensure_namespace ns w = (inl e, set_driver w (set_allocator (driver w) a')).
Proof.
  intros Ht Ha. unfold ensure_namespace, py_bind, get_tenants. rewrite Ht.
  unfold call_allocate. rewrite Ha. reflexivity.
Qed.

(** [render] as a single step. *)
Lemma render_eq (w : World) :
  render w =
    (inr (mkRenderResult (render_body (_renderer (driver w)) (map snd (tenants (_state (driver w)))))
                         (render_output_path (_renderer (driver w)))),
     mkWorld (set_last_render (driver w)
                (mkRenderResult (render_body (_renderer (driver w)) (map snd (tenants (_state (driver w)))))
                                (render_output_path (_renderer (driver w)))))
             (<[render_output_path (_renderer (driver w)) :=
                  render_body (_renderer (driver w)) (map snd (tenants (_state (driver w))))]> (files w))).
Proof. reflexivity. Qed.

Lemma allocate_err_state (n : string) (a a' : DeterministicAllocator) (e : PyExc) :
  allocate n a = (inl e, a') -> a' = a.
Proof.
  intros H. destruct (allocate_cases n a) as [Hs | (c & _ & _ & Hf & _)]; rewrite H in *;
    simpl in *; [done|discriminate].
Qed.

Lemma allocate_keeps_reverse (n k : string) (i : Z) (a : DeterministicAllocator) :
  _reverse a !! i = Some k -> k <> n -> _reverse (snd (allocate n a)) !! i = Some k.
Proof.
  intros Hi Hk. destruct (allocate_cases n a) as [-> | (c & _ & Hc & _ & ->)]; [done|]. simpl.
  destruct (decide (i = c)) as [->|Hic].
  - exfalso. destruct Hc as [Hc|Hc]; congruence.
  - by rewrite lookup_insert_ne by congruence.
Qed.

Lemma allocate_format (n : string) (a : DeterministicAllocator) :
  _format_rd (snd (allocate n a)) = _format_rd a /\ _format_rt (snd (allocate n a)) = _format_rt a.
Proof.
  destruct (allocate_bases n a) as (Hrd & Hrt & _).
  unfold _format_rd, _format_rt. by rewrite Hrd, Hrt.
Qed.

Lemma driver_inv_new (config : GlobalConfig) (output_dir : string) (include_globals : bool) :
  driver_inv (new_driver config output_dir None include_globals).
Proof.
  split; [constructor|]. split; [apply alloc_inv_new|]. intros k t [].
Qed.

(** Shrinking the tenant dict keeps the invariant. *)
Lemma driver_inv_sub (d : VPNv4RouteDriver) (ts : list (string * TenantContext)) :
  driver_inv d -> NoDup (map fst ts) ->
  (forall kt, In kt ts -> In kt (tenants (_state d))) ->
  driver_inv (set_tenants d ts).
Proof.
  intros (H1 & H2 & H3) Hnd Hsub. split; [done|]. split; [done|].
  intros k t Hin. apply H3. by apply Hsub.
Qed.

(** Replacing a tracked tenant by one with the same namespace and VRF keeps
    the invariant. *)
Lemma driver_inv_update (d : VPNv4RouteDriver) (k : string) (t t' : TenantContext) :
  driver_inv d -> dict_get k (tenants (_state d)) = Some t ->
  namespace t' = namespace t -> vrf t' = vrf t ->
  driver_inv (set_tenants d (dict_set k t' (tenants (_state d)))).
Proof.
  intros (H1 & H2 & H3) Hk Hn Hv. split; [by apply dict_set_nodup|]. split; [done|].
  intros k2 t2 Hin. simpl in Hin. apply dict_set_in in Hin as [[= -> ->]|Hin].
  - rewrite Hn, Hv. apply H3. by apply dict_get_in.
  - by apply H3.
Qed.

Lemma driver_inv_last_render (d : VPNv4RouteDriver) (r : RenderResult) :
  driver_inv d -> driver_inv (set_last_render d r).
Proof. done. Qed.

Lemma render_preserves_inv (w : World) : driver_inv (driver w) -> driver_inv (driver (snd (render w))).
Proof. rewrite render_eq. simpl. apply driver_inv_last_render. Qed.

Lemma ensure_namespace_preserves_inv (w : World) (ns : string) :
  driver_inv (driver w) -> driver_inv (driver (snd (ensure_namespace ns w))).
Proof.
  intros Hinv. destruct (dict_get ns (tenants (_state (driver w)))) as [t0|] eqn:Ht.
  - by rewrite (ensure_namespace_tracked _ _ _ Ht).
  - destruct (allocate ns (_allocator (driver w))) as [[e|al] a'] eqn:Ha.
    + rewrite (ensure_namespace_new_err _ _ _ _ Ht Ha). simpl.
      apply allocate_err_state in Ha. subst a'. by rewrite set_allocator_id.
    + rewrite (ensure_namespace_new_ok _ _ _ _ Ht Ha). unfold driver_inv. simpl.
      destruct Hinv as (H1 & H2 & H3).
      pose proof (allocate_ok_registers _ _ _ _ Ha) as Hreg.
      assert (Hinv' : alloc_inv a').
      { replace a' with (snd (allocate ns (_allocator (driver w)))) by (by rewrite Ha).
        by apply allocate_preserves_inv. }
      destruct (allocate_format ns (_allocator (driver w))) as [Hfd Hft]. rewrite Ha in Hfd, Hft.
      simpl in Hfd, Hft.
      split; [by apply dict_set_nodup|]. split; [done|].
      intros k t Hin. apply dict_set_in in Hin as [[= -> ->]|Hin].
      * split; [done|]. split; [done|].
        destruct Hinv' as (G1 & G2 & _). destruct (G2 _ _ Hreg) as [i Hi].
        exists i. split; [done|]. apply G1 in Hi. rewrite Hreg in Hi. injection Hi as ->.
        done.
      * destruct (H3 k t Hin) as (Hn & Hname & i & Hi & Hrd & Himp & Hexp).
        split; [done|]. split; [done|]. exists i.
        rewrite Hfd, Hft. split; [|done].
        replace a' with (snd (allocate ns (_allocator (driver w)))) by (by rewrite Ha).
        apply allocate_keeps_reverse; [done|]. intros ->.
        apply dict_get_none in Ht. apply Ht, in_map_iff. by exists (ns, t).
Qed.

Lemma withdraw_namespace_preserves_inv (w : World) (ns : string) :
  driver_inv (driver w) -> driver_inv (driver (snd (withdraw_namespace ns w))).
Proof.
  intros Hinv. unfold withdraw_namespace, py_bind, get_tenants, put_tenants.
  destruct (dict_pop_spec ns (tenants (_state (driver w)))) as [_ Hpop]; [apply Hinv|].
  destruct (dict_pop ns (tenants (_state (driver w)))) as [[t|] ts'] eqn:Hp; simpl in Hpop; subst ts'.
  - unfold py_bind. apply render_preserves_inv. simpl. apply driver_inv_sub; [done| |].
    + apply filter_nodup_keys, Hinv.
    + intros kt Hkt. by apply filter_In in Hkt as [? _].
  - simpl. apply driver_inv_sub; [done| |].
    + apply filter_nodup_keys, Hinv.
    + intros kt Hkt. by apply filter_In in Hkt as [? _].
Qed.

Lemma ensure_namespace_stored (w : World) (ns : string) (t : TenantContext) :
  fst (ensure_namespace ns w) = inr t ->
  dict_get ns (tenants (_state (driver (snd (ensure_namespace ns w))))) = Some t.
Proof.
  destruct (dict_get ns (tenants (_state (driver w)))) as [t0|] eqn:Ht.
  - rewrite (ensure_namespace_tracked _ _ _ Ht). simpl. by intros [= <-].
  - destruct (allocate ns (_allocator (driver w))) as [[e|al] a'] eqn:Ha.
    + rewrite (ensure_namespace_new_err _ _ _ _ Ht Ha). discriminate.
    + rewrite (ensure_namespace_new_ok _ _ _ _ Ht Ha). simpl. intros [= <-].
      apply dict_get_set_eq.
Qed.

Lemma advertise_prefixes_eq (w : World) (ns : string) (ps : list string) :
  advertise_prefixes ns ps w =
    match ensure_namespace ns w with
    | (inl e, w1) => (inl e, w1)
    | (inr t, w1) =>
        let w2 := set_driver w1 (set_tenants (driver w1)
                    (dict_set ns (add_prefixes t ps) (tenants (_state (driver w1))))) in
        (inr (add_prefixes t ps), snd (render w2))
    end.
Proof.
  unfold advertise_prefixes, py_bind at 1.
  destruct (ensure_namespace ns w) as [[e|t] w1]; reflexivity.
Qed.

Lemma advertise_prefixes_preserves_inv (w : World) (ns : string) (ps : list string) :
  driver_inv (driver w) -> driver_inv (driver (snd (advertise_prefixes ns ps w))).
Proof.
  intros Hinv. rewrite advertise_prefixes_eq.
  pose proof (ensure_namespace_preserves_inv w ns Hinv) as H1.
  pose proof (ensure_namespace_stored w ns) as Hst.
  destruct (ensure_namespace ns w) as [[e|t] w1]; [exact H1|].
  apply render_preserves_inv.
  apply (driver_inv_update _ _ t); [exact H1 | by apply Hst | reflexivity | reflexivity].
Qed.

Lemma driver_withdraw_prefixes_eq (w : World) (ns : string) (ps : list string) :
  driver_withdraw_prefixes ns ps w =
    match dict_get ns (tenants (_state (driver w))) with
    | None => (inr None, w)
    | Some t =>
        let w2 := set_driver w (set_tenants (driver w)
                    (dict_set ns (withdraw_prefixes t ps) (tenants (_state (driver w))))) in
        (inr (Some (withdraw_prefixes t ps)), snd (render w2))
    end.
Proof.
  unfold driver_withdraw_prefixes, py_bind at 1, get_tenants.
  destruct (dict_get ns _); reflexivity.
Qed.

Lemma driver_withdraw_prefixes_preserves_inv (w : World) (ns : string) (ps : list string) :
  driver_inv (driver w) -> driver_inv (driver (snd (driver_withdraw_prefixes ns ps w))).
Proof.
  intros Hinv. rewrite driver_withdraw_prefixes_eq.
  destruct (dict_get ns (tenants (_state (driver w)))) as [t|] eqn:Ht; [|exact Hinv].
  apply render_preserves_inv.
  apply (driver_inv_update _ _ t); [exact Hinv | exact Ht | reflexivity | reflexivity].
Qed.

Lemma synchronize_prefixes_eq (w : World) (ns : string) (ps : list string) :
  synchronize_prefixes ns ps w =
    match ensure_namespace ns w with
    | (inl e, w1) => (inl e, w1)
    | (inr t, w1) =>
        if bool_decide (advertised_prefixes t = fromkeys ps) then (inr t, w1)
        else (inl (AttributeError "set_prefixes"), w1)
    end.
Proof.
  unfold synchronize_prefixes, py_bind at 1.
  destruct (ensure_namespace ns w) as [[e|t] w1]; [done|].
  by destruct (bool_decide _).
Qed.

Lemma synchronize_prefixes_preserves_inv (w : World) (ns : string) (ps : list string) :
  driver_inv (driver w) -> driver_inv (driver (snd (synchronize_prefixes ns ps w))).
Proof.
  intros Hinv. rewrite synchronize_prefixes_eq.
  pose proof (ensure_namespace_preserves_inv w ns Hinv) as H1.
  destruct (ensure_namespace ns w) as [[e|t] w1]; [exact H1|].
  by destruct (bool_decide _).
Qed.

Lemma ensure_namespace_keeps_render (w : World) (ns : string) :
  last_render (_state (driver (snd (ensure_namespace ns w)))) = last_render (_state (driver w)) /\
  files (snd (ensure_namespace ns w)) = files w /\
  _renderer (driver (snd (ensure_namespace ns w))) = _renderer (driver w).
Proof.
  destruct (dict_get ns (tenants (_state (driver w)))) as [t0|] eqn:Ht.
  - by rewrite (ensure_namespace_tracked _ _ _ Ht).
  - destruct (allocate ns (_allocator (driver w))) as [[e|al] a'] eqn:Ha.
    + by rewrite (ensure_namespace_new_err _ _ _ _ Ht Ha).
    + by rewrite (ensure_namespace_new_ok _ _ _ _ Ht Ha).
Qed.

Lemma withdraw_namespace_eq (w : World) (ns : string) :
  withdraw_namespace ns w =
    match dict_pop ns (tenants (_state (driver w))) with
    | (Some t, ts') => (inr (Some t), snd (render (set_driver w (set_tenants (driver w) ts'))))
    | (None, ts') => (inr None, set_driver w (set_tenants (driver w) ts'))
    end.
Proof.
  unfold withdraw_namespace, py_bind at 1, get_tenants.
  destruct (dict_pop ns _) as [[t|] ts']; reflexivity.
Qed.

Lemma dict_get_filter_key {V} (k : string) (d : list (string * V)) :
  dict_get k (List.filter (fun kv => negb (String.eqb (fst kv) k)) d) = None.
Proof.
  apply dict_get_none. rewrite in_map_iff. intros ([k' v] & Hk & Hin). simpl in Hk. subst k'.
  apply filter_In in Hin as [_ H]. simpl in H. by rewrite String.eqb_refl in H.
Qed.

Lemma all_route_targets_single (v : VRFDefinition) (rt : string) :
  import_rts v = [rt] -> export_rts v = [rt] -> all_route_targets v = [rt].
Proof.
  intros Hi He. unfold all_route_targets, fromkeys. rewrite Hi, He. simpl.
  unfold str_in. simpl. by rewrite String.eqb_refl.
Qed.

(** Extra X10: [ensure_namespace] is idempotent: once it has returned a tenant,
    calling it again returns the same tenant and changes nothing. *)
Theorem ensure_namespace_idempotent (w : World) (ns : string) (t : TenantContext) :
  fst (ensure_namespace ns w) = inr t ->
  ensure_namespace ns (snd (ensure_namespace ns w)) = (inr t, snd (ensure_namespace ns w)).
Proof.
  intros H. apply ensure_namespace_tracked. by apply ensure_namespace_stored.
Qed.

Lemma ensure_namespace_idempotent_witness :
  ensure_namespace "tenant-a" (snd (ensure_namespace "tenant-a" lab_world))
  = (inr (tenant_of "tenant-a" (mkAllocation "65000:32935" "65000:32935" "65000:32935")),
     snd (ensure_namespace "tenant-a" lab_world)).
Proof. apply ensure_namespace_idempotent. vm_compute. reflexivity. Defined.

(** Extra X11: for a namespace the driver does not track, a successful
    [ensure_namespace] appends one tenant at the end of the tenant dict:
    VRF named after the namespace, the allocation's RD, the allocation's
    import and export RT as single-element lists, label 0, no prefixes.
    It stores the allocator's new state, and it neither renders nor writes
    a file.  [lookup] of the namespace then returns the allocation. *)
Theorem ensure_namespace_registers (w : World) (ns : string) (al : Allocation)
    (a' : DeterministicAllocator) :
  dict_get ns (tenants (_state (driver w))) = None ->
  allocate ns (_allocator (driver w)) = (inr al, a') ->
  ensure_namespace ns w =
    (inr (mkTenantContext ns (mkVRFDefinition ns (rd al) [import_rt al] [export_rt al] 0) []),
     mkWorld (mkVPNv4RouteDriver (_config (driver w)) a'
                (mkDriverState (tenants (_state (driver w))
                                ++ [(ns, mkTenantContext ns
                                           (mkVRFDefinition ns (rd al) [import_rt al] [export_rt al] 0) [])])
                               (last_render (_state (driver w))))
                (_renderer (driver w)))
             (files w)) /\
  lookup a' ns = Some al.
Proof.
  intros Ht Ha. split; [|by eapply allocate_ok_registers].
  rewrite (ensure_namespace_new_ok _ _ _ _ Ht Ha), (dict_set_absent _ _ _ Ht). reflexivity.
Qed.

Lemma ensure_namespace_registers_witness :
  lookup (snd (allocate "tenant-a" (new_allocator 65000 65000 65535))) "tenant-a"
    = Some (mkAllocation "65000:32935" "65000:32935" "65000:32935").
Proof.
  destruct (ensure_namespace_registers lab_world "tenant-a"
              (mkAllocation "65000:32935" "65000:32935" "65000:32935")
              (snd (allocate "tenant-a" (new_allocator 65000 65000 65535)))) as [_ H];
    [reflexivity | vm_compute; reflexivity | exact H].
Defined.

(** Extra X12: the driver invariant [driver_inv] holds for a new driver built
    with its default allocator, or with a given allocator that keeps the
    allocator's bijection ([alloc_inv], true of a fresh
    [DeterministicAllocator]), and is kept by every driver operation,
    whether it returns or raises. *)
Theorem driver_ops_preserve_inv (config : GlobalConfig) (output_dir : string) (include_globals : bool)
    (a : DeterministicAllocator) (w : World) (ns : string) (ps : list string) :
  alloc_inv a ->
  driver_inv (driver w) ->
  driver_inv (new_driver config output_dir None include_globals) /\
  driver_inv (new_driver config output_dir (Some a) include_globals) /\
  driver_inv (driver (snd (ensure_namespace ns w))) /\
  driver_inv (driver (snd (withdraw_namespace ns w))) /\
  driver_inv (driver (snd (advertise_prefixes ns ps w))) /\
  driver_inv (driver (snd (driver_withdraw_prefixes ns ps w))) /\
  driver_inv (driver (snd (synchronize_prefixes ns ps w))) /\
  driver_inv (driver (snd (render w))).
Proof.
  intros Ha H. split; [apply driver_inv_new|].
  split; [split; [constructor|]; split; [done|]; intros k t []|].
  split; [by apply ensure_namespace_preserves_inv|].
  split; [by apply withdraw_namespace_preserves_inv|].
  split; [by apply advertise_prefixes_preserves_inv|].
  split; [by apply driver_withdraw_prefixes_preserves_inv|].
  split; [by apply synchronize_prefixes_preserves_inv|].
  by apply render_preserves_inv.
Qed.

Lemma driver_ops_preserve_inv_witness :
  driver_inv (driver (snd (advertise_prefixes "tenant-b" ["10.244.1.0/24"] two_tenant_world))).
Proof.
  destruct (driver_ops_preserve_inv lab_config "/tmp/out" false (new_allocator 65000 65000 2)
              two_tenant_world "tenant-b" ["10.244.1.0/24"]) as (_ & _ & _ & _ & H & _);
    [apply alloc_inv_new
    |apply ensure_namespace_preserves_inv, ensure_namespace_preserves_inv, driver_inv_new
    |exact H].
Defined.

(** Extra X13: in a driver satisfying [driver_inv], two distinct tracked namespaces
    hold distinct allocator identifiers; each tenant's RD and route targets
    are those [lookup] returns for its namespace, and its
    [all_route_targets] is the single RT. *)
Theorem tracked_tenants_distinct (d : VPNv4RouteDriver) (k1 k2 : string) (t1 t2 : TenantContext) :
  driver_inv d ->
  dict_get k1 (tenants (_state d)) = Some t1 ->
  dict_get k2 (tenants (_state d)) = Some t2 ->
  k1 <> k2 ->
  exists i1 i2, i1 <> i2 /\
    lookup (_allocator d) k1 = Some (alloc_of (_allocator d) i1) /\
    lookup (_allocator d) k2 = Some (alloc_of (_allocator d) i2) /\
    vrf_rd (vrf t1) = rd (alloc_of (_allocator d) i1) /\
    vrf_rd (vrf t2) = rd (alloc_of (_allocator d) i2) /\
    all_route_targets (vrf t1) = [import_rt (alloc_of (_allocator d) i1)] /\
    all_route_targets (vrf t2) = [import_rt (alloc_of (_allocator d) i2)].
Proof.
  intros (H1 & (G1 & _ & _) & H3) Hk1 Hk2 Hne.
  apply dict_get_in in Hk1, Hk2.
  destruct (H3 _ _ Hk1) as (_ & _ & i1 & Hi1 & Hrd1 & Him1 & Hex1).
  destruct (H3 _ _ Hk2) as (_ & _ & i2 & Hi2 & Hrd2 & Him2 & Hex2).
  exists i1, i2. split; [intros ->; congruence|].
  split; [by apply G1|]. split; [by apply G1|].
  split; [done|]. split; [done|].
  split; by apply all_route_targets_single.
Qed.

Lemma tracked_tenants_distinct_witness :
  exists i1 i2, i1 <> i2 /\
    lookup (_allocator (driver two_tenant_world)) "tenant-a"
      = Some (alloc_of (_allocator (driver two_tenant_world)) i1) /\
    lookup (_allocator (driver two_tenant_world)) "tenant-b"
      = Some (alloc_of (_allocator (driver two_tenant_world)) i2) /\
    "65000:32935" = rd (alloc_of (_allocator (driver two_tenant_world)) i1) /\
    "65000:57195" = rd (alloc_of (_allocator (driver two_tenant_world)) i2) /\
    all_route_targets (mkVRFDefinition "tenant-a" "65000:32935" ["65000:32935"] ["65000:32935"] 0)
      = [import_rt (alloc_of (_allocator (driver two_tenant_world)) i1)] /\
    all_route_targets (mkVRFDefinition "tenant-b" "65000:57195" ["65000:57195"] ["65000:57195"] 0)
      = [import_rt (alloc_of (_allocator (driver two_tenant_world)) i2)].
Proof.
  apply (tracked_tenants_distinct (driver two_tenant_world) "tenant-a" "tenant-b"
           (tenant_of "tenant-a" (mkAllocation "65000:32935" "65000:32935" "65000:32935"))
           (tenant_of "tenant-b" (mkAllocation "65000:57195" "65000:57195" "65000:57195")));
    [| vm_compute; reflexivity | vm_compute; reflexivity | discriminate].
  apply ensure_namespace_preserves_inv, ensure_namespace_preserves_inv, driver_inv_new.
Defined.

(** Extra X14: withdrawing a tracked namespace (tenant keys unique, as
    [driver_inv] guarantees) returns its tenant, removes exactly its entry
    keeping the others in order, re-renders the remaining tenants and
    writes that text to the output file. *)
Theorem withdraw_namespace_tracked (w : World) (ns : string) (t : TenantContext) :
  NoDup (map fst (tenants (_state (driver w)))) ->
  dict_get ns (tenants (_state (driver w))) = Some t ->
  fst (withdraw_namespace ns w) = inr (Some t) /\
  tenants (_state (driver (snd (withdraw_namespace ns w))))
    = List.filter (fun kv => negb (String.eqb (fst kv) ns)) (tenants (_state (driver w))) /\
  dict_get ns (tenants (_state (driver (snd (withdraw_namespace ns w))))) = None /\
  get_rendered_config (driver (snd (withdraw_namespace ns w)))
    = Some (render_body (_renderer (driver w)) (list_tenants (driver (snd (withdraw_namespace ns w))))) /\
  files (snd (withdraw_namespace ns w)) !! render_output_path (_renderer (driver w))
    = get_rendered_config (driver (snd (withdraw_namespace ns w))).
Proof.
  intros Hnd Ht. rewrite withdraw_namespace_eq.
  destruct (dict_pop_spec ns _ Hnd) as [Hf Hs].
  destruct (dict_pop ns (tenants (_state (driver w)))) as [o ts'] eqn:Hp.
  simpl in Hf, Hs. rewrite Ht in Hf. subst o ts'.
  rewrite render_eq. simpl. split; [done|]. split; [done|].
  split; [apply dict_get_filter_key|]. split; [done|].
  by rewrite lookup_insert_eq.
Qed.

Lemma withdraw_namespace_tracked_witness :
  fst (withdraw_namespace "tenant-a" two_tenant_world)
    = inr (Some (tenant_of "tenant-a" (mkAllocation "65000:32935" "65000:32935" "65000:32935"))).
Proof.
  apply (withdraw_namespace_tracked two_tenant_world "tenant-a");
    [apply (bool_decide_unpack _); vm_compute; reflexivity | vm_compute; reflexivity].
Defined.

(** Extra X15: a successful [advertise_prefixes] stores, under the namespace, the
    previous prefix list (empty for a new namespace) followed by the input
    prefixes it did not hold, re-renders all tenants and writes that text
    to the output file. *)
Theorem advertise_prefixes_spec (w : World) (ns : string) (ps : list string) (t' : TenantContext) :
  fst (advertise_prefixes ns ps w) = inr t' ->
  let old := match dict_get ns (tenants (_state (driver w))) with
             | Some t => advertised_prefixes t
             | None => []
             end in
  advertised_prefixes t' = old ++ List.filter (fun p => negb (str_in p old)) ps /\
  dict_get ns (tenants (_state (driver (snd (advertise_prefixes ns ps w))))) = Some t' /\
  get_rendered_config (driver (snd (advertise_prefixes ns ps w)))
    = Some (render_body (_renderer (driver w)) (list_tenants (driver (snd (advertise_prefixes ns ps w))))) /\
  files (snd (advertise_prefixes ns ps w)) !! render_output_path (_renderer (driver w))
    = get_rendered_config (driver (snd (advertise_prefixes ns ps w))).
Proof.
  intros H old. rewrite advertise_prefixes_eq in *.
  destruct (ensure_namespace_keeps_render w ns) as (_ & _ & Hr).
  pose proof (ensure_namespace_stored w ns) as Hst.
  assert (Hold : forall t, fst (ensure_namespace ns w) = inr t -> advertised_prefixes t = old).
  { intros t Ht. unfold old.
    destruct (dict_get ns (tenants (_state (driver w)))) as [t0|] eqn:Hg.
    - rewrite (ensure_namespace_tracked _ _ _ Hg) in Ht. by injection Ht as ->.
    - destruct (allocate ns (_allocator (driver w))) as [[e|al] a'] eqn:Ha.
      + by rewrite (ensure_namespace_new_err _ _ _ _ Hg Ha) in Ht.
      + rewrite (ensure_namespace_new_ok _ _ _ _ Hg Ha) in Ht. by injection Ht as <-. }
  destruct (ensure_namespace ns w) as [[e|t] w1]; simpl in H; [discriminate|].
  injection H as <-. simpl in Hr, Hold. rewrite <- (Hold t eq_refl).
  cbv zeta. rewrite render_eq. simpl. rewrite Hr.
  split; [reflexivity|]. split; [apply dict_get_set_eq|]. split; [done|].
  by rewrite lookup_insert_eq.
Qed.

Lemma advertise_prefixes_spec_witness :
  advertised_prefixes (tenant_of "tenant-a" (mkAllocation "65000:32935" "65000:32935" "65000:32935"))
  ++ ["10.244.1.0/24"] =
  ["10.244.1.0/24"].
Proof.
  destruct (advertise_prefixes_spec two_tenant_world "tenant-a" ["10.244.1.0/24"]
              (add_prefixes (tenant_of "tenant-a" (mkAllocation "65000:32935" "65000:32935" "65000:32935"))
                            ["10.244.1.0/24"])) as [H _];
    [vm_compute; reflexivity|].
  exact H.
Defined.

(** Extra X16: [withdraw_prefixes] of a namespace the driver does not track
    returns [None] and changes nothing (no render, no file). *)
Theorem driver_withdraw_prefixes_unknown (w : World) (ns : string) (ps : list string) :
  dict_get ns (tenants (_state (driver w))) = None ->
  driver_withdraw_prefixes ns ps w = (inr None, w).
Proof. intros H. rewrite driver_withdraw_prefixes_eq. by rewrite H. Qed.

Lemma driver_withdraw_prefixes_unknown_witness :
  driver_withdraw_prefixes "tenant-c" ["10.244.0.0/24"] two_tenant_world = (inr None, two_tenant_world).
Proof. apply driver_withdraw_prefixes_unknown. vm_compute. reflexivity. Defined.

(** Extra X17: [withdraw_prefixes] of a tracked namespace whose prefix list has no
    duplicate removes exactly the listed prefixes (the others keep their
    order), stores the result, re-renders and writes the file. *)
Theorem driver_withdraw_prefixes_known (w : World) (ns : string) (ps : list string) (t : TenantContext) :
  dict_get ns (tenants (_state (driver w))) = Some t ->
  NoDup (advertised_prefixes t) ->
  fst (driver_withdraw_prefixes ns ps w) = inr (Some (withdraw_prefixes t ps)) /\
  advertised_prefixes (withdraw_prefixes t ps)
    = List.filter (fun p => negb (str_in p ps)) (advertised_prefixes t) /\
  dict_get ns (tenants (_state (driver (snd (driver_withdraw_prefixes ns ps w)))))
    = Some (withdraw_prefixes t ps) /\
  get_rendered_config (driver (snd (driver_withdraw_prefixes ns ps w)))
    = Some (render_body (_renderer (driver w))
              (list_tenants (driver (snd (driver_withdraw_prefixes ns ps w))))) /\
  files (snd (driver_withdraw_prefixes ns ps w)) !! render_output_path (_renderer (driver w))
    = get_rendered_config (driver (snd (driver_withdraw_prefixes ns ps w))).
Proof.
  intros Ht Hnd. rewrite driver_withdraw_prefixes_eq, Ht. cbv zeta. rewrite render_eq. simpl.
  split; [done|]. split; [by apply withdraw_fold_filter|].
  split; [apply dict_get_set_eq|]. split; [done|]. by rewrite lookup_insert_eq.
Qed.

Lemma driver_withdraw_prefixes_known_witness :
  advertised_prefixes
    (withdraw_prefixes (mkTenantContext "tenant-a"
                          (mkVRFDefinition "tenant-a" "65000:32935" ["65000:32935"] ["65000:32935"] 0)
                          ["10.244.0.0/24"; "10.244.1.0/24"]) ["10.244.0.0/24"])
  = ["10.244.1.0/24"].
Proof.
  destruct (driver_withdraw_prefixes_known
              (snd (advertise_prefixes "tenant-a" ["10.244.0.0/24"; "10.244.1.0/24"] lab_world))
              "tenant-a" ["10.244.0.0/24"]
              (mkTenantContext "tenant-a"
                 (mkVRFDefinition "tenant-a" "65000:32935" ["65000:32935"] ["65000:32935"] 0)
                 ["10.244.0.0/24"; "10.244.1.0/24"])) as (_ & H & _);
    [vm_compute; reflexivity | apply (bool_decide_unpack _); vm_compute; reflexivity |].
  rewrite H. reflexivity.
Defined.

(** Extra X18: once [ensure_namespace] has returned a tenant, [synchronize_prefixes]
    returns it when its stored list already equals the de-duplicated input
    and raises [AttributeError] otherwise; either way it leaves the world
    as [ensure_namespace] left it, so it never renders or writes a file. *)
Theorem synchronize_prefixes_spec (w : World) (ns : string) (ps : list string) (t : TenantContext) :
  fst (ensure_namespace ns w) = inr t ->
  synchronize_prefixes ns ps w =
    (if bool_decide (advertised_prefixes t = fromkeys ps) then inr t
     else inl (AttributeError "set_prefixes"),
     snd (ensure_namespace ns w)) /\
  get_rendered_config (driver (snd (synchronize_prefixes ns ps w))) = get_rendered_config (driver w) /\
  files (snd (synchronize_prefixes ns ps w)) = files w.
Proof.
  intros H.
  assert (Hs : synchronize_prefixes ns ps w =
    (if bool_decide (advertised_prefixes t = fromkeys ps) then inr t
     else inl (AttributeError "set_prefixes"),
     snd (ensure_namespace ns w))).
  { rewrite synchronize_prefixes_eq.
    destruct (ensure_namespace ns w) as [[e|t0] w1]; simpl in H; [discriminate|].
    injection H as ->. by destruct (bool_decide _). }
  split; [done|]. rewrite Hs. simpl.
  destruct (ensure_namespace_keeps_render w ns) as (Hl & Hf & _).
  unfold get_rendered_config. by rewrite Hl, Hf.
Qed.

Lemma synchronize_prefixes_spec_witness :
  synchronize_prefixes "tenant-a" [] lab_world
  = (inr (tenant_of "tenant-a" (mkAllocation "65000:32935" "65000:32935" "65000:32935")),
     snd (ensure_namespace "tenant-a" lab_world)).
Proof.
  destruct (synchronize_prefixes_spec lab_world "tenant-a" []
              (tenant_of "tenant-a" (mkAllocation "65000:32935" "65000:32935" "65000:32935")))
    as [H _]; [vm_compute; reflexivity|].
  rewrite H. reflexivity.
Defined.

(** Extra X19: [render] (and [sync], which calls it) returns the text of all
    tracked tenants in dict order, records it as the last render, writes it
    to [<output_dir>/vpnv4.conf], keeps the tenants, and is idempotent: a
    second call returns the same result and leaves the same world. *)
Theorem render_spec (w : World) :
  fst (render w) = inr (mkRenderResult (render_body (_renderer (driver w)) (list_tenants (driver w)))
                                      (render_output_path (_renderer (driver w)))) /\
  get_rendered_config (driver (snd (render w)))
    = Some (render_body (_renderer (driver w)) (list_tenants (driver w))) /\
  files (snd (render w)) !! render_output_path (_renderer (driver w))
    = Some (render_body (_renderer (driver w)) (list_tenants (driver w))) /\
  list_tenants (driver (snd (render w))) = list_tenants (driver w) /\
  render (snd (render w)) = render w /\
  sync (snd (render w)) = render w.
Proof.
  assert (Hidem : render (snd (render w)) = render w).
  { rewrite (render_eq w). simpl. rewrite (render_eq (mkWorld _ _)). simpl.
    destruct (driver w) as [c a [ts lr] r]. simpl. by rewrite insert_insert_eq. }
  rewrite render_eq. simpl. split; [done|]. split; [done|].
  split; [by rewrite lookup_insert_eq|]. split; [done|].
  split; [|unfold sync]; by rewrite <- render_eq.
Qed.

(** ** Extra properties of [vpnv4_agent/config.py] *)

Lemma parse_families_go_inr (raw : list string) (fs : list AddressFamily) :
  parse_families_go raw = inr fs ->
  fs = map (fun f => if String.eqb (str_upper f) "VPNV4" then VPNV4 else VPNV6) raw.
Proof.
  revert fs. induction raw as [|f rest IH]; intros fs; simpl; [by intros [= <-]|].
  destruct (String.eqb (str_upper f) "VPNV4");
    [|destruct (String.eqb (str_upper f) "VPNV6"); [|discriminate]];
    destruct (parse_families_go rest) as [e|fs'] eqn:Hr; try discriminate;
    intros [= <-]; by rewrite (IH fs' eq_refl).
Qed.

(** Extra X27: the [families] loop of [_parse_neighbor] succeeds exactly when every
    name is ["vpnv4"] or ["vpnv6"] in any letter case, and then maps each to
    its family in order; otherwise it raises
    [ValueError "Unsupported address family '<name>'"] for a name that is
    neither. *)
Theorem parse_families_spec (raw : list string) :
  (forall fs, parse_families_go raw = inr fs <->
     Forall (fun f => str_upper f = "VPNV4" \/ str_upper f = "VPNV6") raw /\
     fs = map (fun f => if String.eqb (str_upper f) "VPNV4" then VPNV4 else VPNV6) raw) /\
  (forall e, parse_families_go raw = inl e ->
     exists f, In f raw /\ str_upper f <> "VPNV4" /\ str_upper f <> "VPNV6" /\
               e = ValueError ("Unsupported address family '" +:+ f +:+ "'")).
Proof.
  induction raw as [|f rest [IH1 IH2]]; simpl.
  - split; [|discriminate]. intros fs. split; [intros [= <-]; by split|by intros [_ ->]].
  - destruct (String.eqb (str_upper f) "VPNV4") eqn:E4;
      [|destruct (String.eqb (str_upper f) "VPNV6") eqn:E6].
    + apply String.eqb_eq in E4. split.
      * intros fs. destruct (parse_families_go rest) as [e|fs'] eqn:Hr.
        -- split; [discriminate|]. intros [HF ->]. inversion HF; subst.
           pose proof (proj2 (IH1 _) (conj ltac:(eassumption) eq_refl)). congruence.
        -- split.
           ++ intros [= <-]. destruct (proj1 (IH1 fs') eq_refl) as [HF ->].
              split; [constructor; [by left|done]|done].
           ++ intros [HF ->]. inversion HF; subst.
              destruct (proj1 (IH1 fs') eq_refl) as [_ ->]. done.
      * intros e. destruct (parse_families_go rest) as [e'|fs'] eqn:Hr; [|discriminate].
        intros [= <-]. destruct (IH2 e' eq_refl) as (g & Hg & Hg'). exists g. by split; [right|].
    + apply String.eqb_eq in E6. split.
      * intros fs. destruct (parse_families_go rest) as [e|fs'] eqn:Hr.
        -- split; [discriminate|]. intros [HF ->]. inversion HF; subst.
           pose proof (proj2 (IH1 _) (conj ltac:(eassumption) eq_refl)). congruence.
        -- split.
           ++ intros [= <-]. destruct (proj1 (IH1 fs') eq_refl) as [HF ->].
              split; [constructor; [by right|done]|done].
           ++ intros [HF ->]. inversion HF; subst.
              destruct (proj1 (IH1 fs') eq_refl) as [_ ->]. done.
      * intros e. destruct (parse_families_go rest) as [e'|fs'] eqn:Hr; [|discriminate].
        intros [= <-]. destruct (IH2 e' eq_refl) as (g & Hg & Hg'). exists g. by split; [right|].
    + apply String.eqb_neq in E4, E6. split.
      * intros fs. split; [discriminate|]. intros [HF _]. inversion HF; subst. tauto.
      * intros e [= <-]. exists f. by split; [left|].
Qed.

(** Extra X28: a neighbour parsed by [_parse_neighbor] keeps the entry's address,
    ASN and description and has at least one family: the parsed list of a
    non-empty [families] key, [(VPNV4,)] when the key is missing, null or
    empty. *)
Theorem parse_neighbor_spec (entry : NeighborEntry) (nb : Neighbor) :
  _parse_neighbor entry = inr nb ->
  address nb = entry_address entry /\ remote_asn nb = entry_remote_asn entry /\
  description nb = entry_description entry /\ families nb <> [] /\
  match entry_families entry with
  | Some ((_ :: _) as raw) =>
      families nb = map (fun f => if String.eqb (str_upper f) "VPNV4" then VPNV4 else VPNV6) raw
  | _ => families nb = [VPNV4]
  end.
Proof.
  unfold _parse_neighbor, _parse_families.
  destruct (entry_families entry) as [[|f rest]|].
  - intros [= <-]. simpl. by repeat split.
  - intros H. cbv beta iota in H.
    destruct (parse_families_go (f :: rest)) as [e|fs] eqn:Hp; cbv beta iota in H; [discriminate H|].
    injection H as <-. simpl. apply parse_families_go_inr in Hp. subst fs.
    by repeat split.
  - intros [= <-]. simpl. by repeat split.
Qed.

Lemma parse_neighbor_spec_witness :
  families (mkNeighbor "172.31.100.11" 65100 [VPNV4; VPNV6] None) = [VPNV4; VPNV6].
Proof.
  destruct (parse_neighbor_spec
              (mkNeighborEntry "172.31.100.11" 65100 (Some ["vpnv4"; "VPNv6"]) None)
              (mkNeighbor "172.31.100.11" 65100 [VPNV4; VPNV6] None)) as (_ & _ & _ & _ & H);
    [vm_compute; reflexivity | exact H].
Defined.
